(** * Taskbar Cat: the pose-decision engine of [base.py]

    A shallow embedding of the class [TaskbarCatOverlay]: the direction
    classifier [determine_direction], the pose resolver [find_best_pose],
    the timer callback [update_orientation] with its cooldown gate, the
    anchor computation [get_cat_anchor_point], and the operations that
    touch the pose library ([load_images], [set_pose],
    [update_cat_position] and the callbacks of the adjustment dialog).

    Python integers are [Z]; Python strings are [string]; the dictionary
    [pose_images] is an insertion-ordered association list, because
    [list(self.pose_images.keys())[0]] observes the insertion order; the
    two floating-point products of the anchor computation are binary64
    products, computed with the reference operations of [SpecFloat]. *)

From Stdlib Require Import ZArith String Ascii List Bool Lia QArith Qabs.
From Stdlib Require Import SpecFloat.
Import ListNotations.

Open Scope string_scope.
Open Scope Z_scope.

(** ** Python dictionaries with string keys

    A [dict] keeps its keys in insertion order; assigning to a key that
    is already present replaces the value and leaves the key where it
    is, assigning to a new key appends it. *)
Module PyDict.

Definition t (V : Type) : Type := list (string * V).

Definition empty {V : Type} : t V := [].

(** [list(d.keys())] *)
Definition keys {V : Type} (d : t V) : list string := map fst d.

(** [d.get(k)] *)
Fixpoint get {V : Type} (k : string) (d : t V) : option V :=
  match d with
  | [] => None
  | (k', v) :: d' => if String.eqb k k' then Some v else get k d'
  end.

(** [k in d] *)
Definition contains {V : Type} (k : string) (d : t V) : bool :=
  match get k d with
  | Some _ => true
  | None => false
  end.

(** [d[k] = v] *)
Fixpoint set {V : Type} (k : string) (v : V) (d : t V) : t V :=
  match d with
  | [] => [(k, v)]
  | (k', v') :: d' =>
      if String.eqb k k' then (k', v) :: d' else (k', v') :: set k v d'
  end.

(** [len(d)] *)
Definition len {V : Type} (d : t V) : Z := Z.of_nat (List.length d).

End PyDict.

(** ** The string methods used by the image loader *)
Module PyStr.

(** [s.startswith(p)] *)
Definition startswith (s p : string) : bool := String.prefix p s.

(** [s.endswith(suffix)] *)
Definition endswith (s suffix : string) : bool :=
  let n := String.length s in
  let k := String.length suffix in
  (k <=? n)%nat && String.eqb (String.substring (n - k) k s) suffix.

(** [s[:-k]] for a positive [k] *)
Definition drop_last (k : nat) (s : string) : string :=
  String.substring 0 (String.length s - k) s.

(** Truth value of a string: only the empty string is false. *)
Definition truthy (s : string) : bool := negb (String.eqb s "").

End PyStr.

(** ** IEEE 754 binary64, the format of a Python [float] *)
Module Float64.

Definition prec : Z := 53.
Definition emax : Z := 1024.

Definition float : Type := spec_float.

(** Conversion of an integer operand of [int * float]; exact below 2^53. *)
Definition of_int (n : Z) : float := binary_normalize prec emax n 0 false.

(** [a * b], rounded to nearest even. *)
Definition mul (a b : float) : float := SFmul prec emax a b.

(** [int(f)]: the fractional part is dropped, towards zero.  Python raises
    on an infinity or a NaN; the operands here are products of a C [int]
    (a coordinate of a [QRect]) by a ratio below one, which are finite,
    and the model returns 0 on the two cases that cannot be reached. *)
Definition to_int (f : float) : Z :=
  match f with
  | S754_zero _ => 0
  | S754_finite s m e =>
      let v := if 0 <=? e then Zpos m * 2 ^ e else Z.quot (Zpos m) (2 ^ (- e)) in
      if s then - v else v
  | S754_infinity _ => 0
  | S754_nan => 0
  end.

(** The literal [0.5], which is 2^-1. *)
Definition lit_0_5 : float := S754_finite false 4503599627370496 (-53).

(** The literal [0.33]: the binary64 number nearest to 33/100,
    [0x1.51eb851eb851fp-2]. *)
Definition lit_0_33 : float := S754_finite false 5944751508129055 (-54).

(** The rational value of a finite float. *)
Definition to_Q (f : float) : Q :=
  match f with
  | S754_finite s m e =>
      let q := if 0 <=? e then inject_Z (Zpos m * 2 ^ e)
               else Qmake (Zpos m) (Z.to_pos (2 ^ (- e))) in
      if s then Qopp q else q
  | _ => 0%Q
  end.

End Float64.

(** ** Constants set once by [__init__] and never assigned again *)

(** Direction thresholds (in pixels). *)
Definition H_STRONG_THRESHOLD : Z := 100.
Definition H_WEAK_THRESHOLD : Z := 60.
Definition V_THRESHOLD : Z := 80.

(** Cooldown between pose changes (milliseconds). *)
Definition POSE_CHANGE_COOLDOWN_MS : Z := 150.

(** Anchor point relative to the image. *)
Definition anchor_x_ratio : Float64.float := Float64.lit_0_5.
Definition anchor_y_ratio : Float64.float := Float64.lit_0_33.

(** ** The direction classifier

    [//] is Python's floor division, which is [Z.div]; the unary minus
    binds tighter than [//], so the left and upper half thresholds are
    [(- H_WEAK_THRESHOLD) // 2] and [(- V_THRESHOLD) // 2]. *)
Definition determine_direction (dx dy : Z) : string * string * string * string :=
  let '(h_dir, h_intensity) :=
    if dx <? - H_STRONG_THRESHOLD then ("left", "far")
    else if dx <? - H_WEAK_THRESHOLD then ("left", "normal")
    else if dx <? (- H_WEAK_THRESHOLD) / 2 then ("left", "slight")
    else if dx >? H_STRONG_THRESHOLD then ("right", "far")
    else if dx >? H_WEAK_THRESHOLD then ("right", "normal")
    else if dx >? H_WEAK_THRESHOLD / 2 then ("right", "slight")
    else ("forward", "normal") in
  let '(v_dir, v_intensity) :=
    if dy <? - V_THRESHOLD then ("up", "normal")
    else if dy <? (- V_THRESHOLD) / 2 then ("up", "slight")
    else if dy >? V_THRESHOLD then ("down", "normal")
    else if dy >? V_THRESHOLD / 2 then ("down", "slight")
    else ("center", "normal") in
  (h_dir, h_intensity, v_dir, v_intensity).

(** Projections of a descriptor. *)
Definition horizontal (d : string * string * string * string) : string * string :=
  let '(h_dir, h_intensity, _, _) := d in (h_dir, h_intensity).

Definition vertical (d : string * string * string * string) : string * string :=
  let '(_, _, v_dir, v_intensity) := d in (v_dir, v_intensity).

(** ** The pose resolver *)

(** Python's [==] on strings. *)
Notation "a == b" := (String.eqb a b) (at level 70, no associativity) : string_scope.

(** The list [candidates] that [find_best_pose] builds, in order of
    preference.  The f-strings are concatenations. *)
Definition candidates (h_dir h_intensity v_dir v_intensity : string) : list string :=
  if h_dir == "forward" then
    if v_dir == "center" then ["forward"]
    else if v_intensity == "slight" then
      ["forward_slight_" ++ v_dir; "forward_" ++ v_dir; "forward"]
    else
      ["forward_" ++ v_dir; "forward_slight_" ++ v_dir; "forward"]
  else if (h_dir == "left") || (h_dir == "right") then
    if h_intensity == "far" then
      if v_dir == "center" then
        [h_dir ++ "_" ++ h_dir; h_dir; h_dir ++ "_center"]
      else if v_intensity == "slight" then
        [h_dir ++ "_slight_" ++ v_dir; h_dir ++ "_" ++ v_dir;
         h_dir ++ "_" ++ h_dir; h_dir]
      else
        [h_dir ++ "_" ++ v_dir; h_dir ++ "_slight_" ++ v_dir;
         h_dir ++ "_" ++ h_dir; h_dir]
    else if h_intensity == "slight" then
      if v_dir == "center" then
        ["forward_" ++ h_dir; h_dir; h_dir ++ "_center"; "forward"]
      else
        let forward_side := "forward_" ++ h_dir in
        if v_intensity == "slight" then
          [forward_side ++ "_slight_" ++ v_dir; forward_side ++ "_" ++ v_dir;
           forward_side;
           h_dir ++ "_slight_" ++ v_dir; h_dir ++ "_" ++ v_dir; h_dir;
           "forward_slight_" ++ v_dir; "forward_" ++ v_dir; "forward"]
        else
          [forward_side ++ "_" ++ v_dir; forward_side ++ "_slight_" ++ v_dir;
           forward_side;
           h_dir ++ "_" ++ v_dir; h_dir ++ "_slight_" ++ v_dir; h_dir;
           "forward_" ++ v_dir; "forward_slight_" ++ v_dir; "forward"]
    else
      if v_dir == "center" then [h_dir; h_dir ++ "_center"]
      else if v_intensity == "slight" then
        [h_dir ++ "_slight_" ++ v_dir; h_dir ++ "_" ++ v_dir; h_dir]
      else
        [h_dir ++ "_" ++ v_dir; h_dir ++ "_slight_" ++ v_dir; h_dir]
  else [].

(** The loop [for candidate in candidates: if candidate in d: return candidate]. *)
Fixpoint first_present {V : Type} (cands : list string) (d : PyDict.t V) : option string :=
  match cands with
  | [] => None
  | candidate :: rest =>
      if PyDict.contains candidate d then Some candidate else first_present rest d
  end.

(** [find_best_pose]; [None] is Python's [None]. *)
Definition find_best_pose {V : Type} (pose_images : PyDict.t V)
    (h_dir h_intensity v_dir v_intensity : string) : option string :=
  match first_present (candidates h_dir h_intensity v_dir v_intensity) pose_images with
  | Some candidate => Some candidate
  | None =>
      if PyDict.contains "forward" pose_images then Some "forward"
      else if PyDict.len pose_images >? 0 then hd_error (PyDict.keys pose_images)
      else None
  end.

(** ** The overlay object *)

(** [QRect]: the geometry of the label. *)
Record QRect : Type := mkRect {
  rect_x : Z;
  rect_y : Z;
  rect_width : Z;
  rect_height : Z
}.

(** A pose image: [QPixmap(image_path).scaled(self.cat_size, ...)], known
    by the file it was read from and the size it was scaled to. *)
Record QPixmap : Type := mkPixmap {
  image_file : string;
  scaled_to : Z
}.

(** [self.label]: where the window is and what it shows. *)
Record QLabel : Type := mkLabel {
  geometry : QRect;
  pixmap : option QPixmap
}.

(** The attributes of [TaskbarCatOverlay] that change after [__init__];
    [cat_size] is the side of the square [QSize(size, size)]. *)
Record TaskbarCatOverlay : Type := mkOverlay {
  current_pose : option string;
  last_change_time : Z;
  pose_images : PyDict.t QPixmap;
  cat_size : Z;
  y_offset : Z;
  x_offset : Z;
  label : QLabel
}.

(** What the platform answers when the overlay places its window and
    re-reads its images: the available geometry of the primary screen and
    [os.path.exists] on the files of the images directory. *)
Record Desktop : Type := mkDesktop {
  screen_width : Z;
  screen_height : Z;
  path_exists : string -> bool
}.

(** [label.setPixmap(px)] *)
Definition setPixmap (px : QPixmap) (l : QLabel) : QLabel :=
  mkLabel (geometry l) (Some px).

(** [label.resize(QSize(size, size))] followed by [label.move(x, y)] *)
Definition resize_move (size x y : Z) (l : QLabel) : QLabel :=
  mkLabel (mkRect x y size size) (pixmap l).

(** [target_pose != self.current_pose] and [pose_name == self.current_pose]:
    a string never equals [None]. *)
Definition pose_eqb (pose_name : string) (current : option string) : bool :=
  match current with
  | Some p => pose_name == p
  | None => false
  end.

(** [set_pose]; [now] is what [QDateTime.currentMSecsSinceEpoch()] returns
    when the method reads the clock. *)
Definition set_pose (now : Z) (pose_name : string) (self : TaskbarCatOverlay)
    : TaskbarCatOverlay :=
  if pose_eqb pose_name (current_pose self) then self
  else
    match PyDict.get pose_name (pose_images self) with
    | Some px =>
        mkOverlay (Some pose_name) now (pose_images self)
                  (cat_size self) (y_offset self) (x_offset self)
                  (setPixmap px (label self))
    | None => self
    end.

(** [get_cat_anchor_point] *)
Definition get_cat_anchor_point (self : TaskbarCatOverlay) : Z * Z :=
  let rect := geometry (label self) in
  let anchor_x :=
    rect_x rect
    + Float64.to_int (Float64.mul (Float64.of_int (rect_width rect)) anchor_x_ratio) in
  let anchor_y :=
    rect_y rect
    + Float64.to_int (Float64.mul (Float64.of_int (rect_height rect)) anchor_y_ratio) in
  (anchor_x, anchor_y).

(** The relative position of the mouse, [(dx, dy)] of [update_orientation]. *)
Definition relative_position (self : TaskbarCatOverlay) (mouse : Z * Z) : Z * Z :=
  let '(mouse_x, mouse_y) := mouse in
  let '(cat_x, cat_y) := get_cat_anchor_point self in
  (mouse_x - cat_x, mouse_y - cat_y).

(** The [target_pose] of [update_orientation]: classify, then resolve. *)
Definition target_pose (self : TaskbarCatOverlay) (mouse : Z * Z) : option string :=
  let '(dx, dy) := relative_position self mouse in
  let '(h_dir, h_intensity, v_dir, v_intensity) := determine_direction dx dy in
  find_best_pose (pose_images self) h_dir h_intensity v_dir v_intensity.

(** [update_orientation], the timer callback.  [mouse] is the answer of
    [get_global_mouse_pos()], [current_time] the clock read at the start of
    the callback and [now] the clock read by [set_pose] if it is reached. *)
Definition update_orientation (mouse : Z * Z) (current_time now : Z)
    (self : TaskbarCatOverlay) : TaskbarCatOverlay :=
  match target_pose self mouse with
  | None => self
  | Some target =>
      let time_since_last_change := current_time - last_change_time self in
      if negb (pose_eqb target (current_pose self)) then
        if time_since_last_change >=? POSE_CHANGE_COOLDOWN_MS then
          set_pose now target self
        else self
      else self
  end.

(** One turn of the loop of [load_images] over [os.listdir(images_dir)]. *)
Definition load_image (size : Z) (images : PyDict.t QPixmap) (filename : string)
    : PyDict.t QPixmap :=
  if PyStr.endswith filename ".png" && negb (PyStr.startswith filename "cat_") then
    let pose_name := PyStr.drop_last 4 filename in
    PyDict.set pose_name (mkPixmap filename size) images
  else images.

(** [load_images]; [images_dir] is the listing of the images directory, or
    [None] when the directory does not exist. *)
Definition load_images (images_dir : option (list string)) (now : Z)
    (self : TaskbarCatOverlay) : TaskbarCatOverlay :=
  let images :=
    match images_dir with
    | Some files => fold_left (load_image (cat_size self)) files (pose_images self)
    | None => pose_images self
    end in
  let self := mkOverlay (current_pose self) (last_change_time self) images
                        (cat_size self) (y_offset self) (x_offset self)
                        (label self) in
  if PyDict.contains "forward" images then set_pose now "forward" self
  else if PyDict.len images >? 0 then
    match PyDict.keys images with
    | first_pose :: _ => set_pose now first_pose self
    | [] => self
    end
  else self.

(** One turn of the re-scaling loop of [update_cat_position]. *)
Definition rescale_image (d : Desktop) (size : Z) (images : PyDict.t QPixmap)
    (pose_name : string) : PyDict.t QPixmap :=
  let pose_file := pose_name ++ ".png" in
  if path_exists d pose_file then
    PyDict.set pose_name (mkPixmap pose_file size) images
  else images.

(** [update_cat_position] *)
Definition update_cat_position (d : Desktop) (self : TaskbarCatOverlay)
    : TaskbarCatOverlay :=
  let x := screen_width d - cat_size self + x_offset self in
  let y := screen_height d - cat_size self + y_offset self in
  let lbl := resize_move (cat_size self) x y (label self) in
  let images :=
    fold_left (rescale_image d (cat_size self))
              (PyDict.keys (pose_images self)) (pose_images self) in
  let lbl :=
    match current_pose self with
    | Some p =>
        if PyStr.truthy p then
          match PyDict.get p images with
          | Some px => setPixmap px lbl
          | None => lbl
          end
        else lbl
    | None => lbl
    end in
  mkOverlay (current_pose self) (last_change_time self) images
            (cat_size self) (y_offset self) (x_offset self) lbl.

(** The live-update callbacks of the adjustment dialog. *)
Definition update_size (d : Desktop) (value : Z) (self : TaskbarCatOverlay)
    : TaskbarCatOverlay :=
  update_cat_position d
    (mkOverlay (current_pose self) (last_change_time self) (pose_images self)
               value (y_offset self) (x_offset self) (label self)).

Definition update_y_offset (d : Desktop) (value : Z) (self : TaskbarCatOverlay)
    : TaskbarCatOverlay :=
  update_cat_position d
    (mkOverlay (current_pose self) (last_change_time self) (pose_images self)
               (cat_size self) value (x_offset self) (label self)).

Definition update_x_offset (d : Desktop) (value : Z) (self : TaskbarCatOverlay)
    : TaskbarCatOverlay :=
  update_cat_position d
    (mkOverlay (current_pose self) (last_change_time self) (pose_images self)
               (cat_size self) (y_offset self) value (label self)).

(** [on_cancel] restores the values the dialog opened with. *)
Definition on_cancel (d : Desktop) (original_size original_y_offset original_x_offset : Z)
    (self : TaskbarCatOverlay) : TaskbarCatOverlay :=
  update_cat_position d
    (mkOverlay (current_pose self) (last_change_time self) (pose_images self)
               original_size original_y_offset original_x_offset (label self)).

(** [__init__]: the saved settings, the window placed by [setup_window]
    (it shows nothing yet), then [load_images]. *)
Definition init (size y_off x_off : Z) (d : Desktop)
    (images_dir : option (list string)) (now : Z) : TaskbarCatOverlay :=
  let x := screen_width d - size + x_off in
  let y := screen_height d - size + y_off in
  load_images images_dir now
    (mkOverlay None 0 PyDict.empty size y_off x_off
               (mkLabel (mkRect x y size size) None)).

(** ** The operations as events *)

(** Everything that happens to the overlay after [__init__]: the timer
    fires, or a control of the adjustment dialog changes. *)
Inductive event : Type :=
| Timeout (mouse : Z * Z) (current_time now : Z)
| SizeChanged (d : Desktop) (value : Z)
| YOffsetChanged (d : Desktop) (value : Z)
| XOffsetChanged (d : Desktop) (value : Z)
| Cancelled (d : Desktop) (original_size original_y_offset original_x_offset : Z).

Definition step (e : event) (self : TaskbarCatOverlay) : TaskbarCatOverlay :=
  match e with
  | Timeout mouse current_time now => update_orientation mouse current_time now self
  | SizeChanged d value => update_size d value self
  | YOffsetChanged d value => update_y_offset d value self
  | XOffsetChanged d value => update_x_offset d value self
  | Cancelled d s y x => on_cancel d s y x self
  end.

(** The run of a list of events, oldest first. *)
Definition run (es : list event) (self : TaskbarCatOverlay) : TaskbarCatOverlay :=
  fold_left (fun s e => step e s) es self.

(** The states the program can be in. *)
Inductive reachable : TaskbarCatOverlay -> Prop :=
| reachable_init size y_off x_off d images_dir now :
    reachable (init size y_off x_off d images_dir now)
| reachable_step e self :
    reachable self -> reachable (step e self).

(** The invariant of [current_pose]: none, or a key of the library. *)
Definition pose_ok (self : TaskbarCatOverlay) : Prop :=
  match current_pose self with
  | None => True
  | Some p => In p (PyDict.keys (pose_images self))
  end.

(** The anchor point as the specification words it: the fractions 0.5 and
    0.33 of the bounding box, as rational numbers. *)
Definition anchor_point_spec (x y width height : Z) : Q * Q :=
  ((inject_Z x + inject_Z width * (1 # 2))%Q,
   (inject_Z y + inject_Z height * (33 # 100))%Q).

(** The anchor point with both products cut to integers, towards zero. *)
Definition anchor_point_int (x y width height : Z) : Z * Z :=
  (x + Z.quot width 2, y + Z.quot (33 * height) 100).

(** The check behind the anchor theorem: on a side of [n] pixels the two
    binary64 products, cut by [int], are the integer quotients. *)
Definition anchor_products_agree (n : nat) : bool :=
  let side := Z.of_nat n in
  (Float64.to_int (Float64.mul (Float64.of_int side) anchor_x_ratio) =? Z.quot side 2)
  && (Float64.to_int (Float64.mul (Float64.of_int side) anchor_y_ratio)
      =? Z.quot (33 * side) 100).

(** The largest side the anchor theorem covers; the dialog and the saved
    settings keep the side between 50 and 500. *)
Definition max_side : nat := Z.to_nat 4096.

(** ** A concrete overlay

    A cat of side 150 with offsets 15 and -10 (the default settings) on a
    1920 by 1040 desktop, started at clock 1000 with the two images
    [forward.png] and [left.png]; [icon.ico] and [cat_old.png] are skipped
    by the loader.  The window is at (1760, 905), so the anchor is at
    (1835, 954). *)
Module Example.

Definition desktop : Desktop :=
  mkDesktop 1920 1040 (fun _ => true).

Definition images_dir : list string :=
  ["forward.png"; "icon.ico"; "cat_old.png"; "left.png"].

Definition cat : TaskbarCatOverlay :=
  init 150 15 (-10) desktop (Some images_dir) 1000.

(** A pointer far to the left of the anchor, at its height. *)
Definition pointer_left : Z * Z := (1600, 954).

(** A pointer on the anchor. *)
Definition pointer_centre : Z * Z := (1835, 954).

End Example.

(** ** The window style *)

Definition WS_EX_TRANSPARENT : Z := 0x20.
Definition WS_EX_LAYERED : Z := 0x80000.
Definition WS_EX_TOPMOST : Z := 0x00000008.

(** [make_click_through], on the extended style that [GetWindowLongW]
    returns for the window: the result is what [SetWindowLongW] stores. *)
Definition make_click_through (style : Z) : Z :=
  Z.lor style (Z.lor WS_EX_TRANSPARENT WS_EX_LAYERED).

(** ** Saved settings *)

(** What [json.load] returns. *)
#[local] Unset Elimination Schemes.
Inductive json : Type :=
| JNull
| JBool (b : bool)
| JInt (z : Z)
| JFloat (f : Float64.float)
| JString (s : string)
| JArray (items : list json)
| JObject (members : PyDict.t json).
#[local] Set Elimination Schemes.

(** Operations that raise are in [option]: [None] is an exception, which
    the [except Exception] of [load_settings] catches whatever its class. *)
Notation "x <- e ;; k" :=
  (match e with Some x => k | None => None end)
  (at level 61, e at next level, right associativity).

Module Py.

(** [k in v] for a string [k]: a key of a dict, an item of a list, a
    substring of a string; [TypeError] on the other values. *)
Definition contains (k : string) (v : json) : option bool :=
  match v with
  | JObject members => Some (PyDict.contains k members)
  | JArray items =>
      Some (existsb (fun item => match item with
                                 | JString s => s == k
                                 | _ => false
                                 end) items)
  | JString s =>
      Some (match String.index 0 k s with Some _ => true | None => false end)
  | _ => None
  end.

(** [v[k]] for a string [k]: [KeyError] on a dict without the key,
    [TypeError] on the other values. *)
Definition getitem (v : json) (k : string) : option json :=
  match v with
  | JObject members => PyDict.get k members
  | _ => None
  end.

(** [lo <= v] for an integer [lo]: integers, booleans (0 and 1) and
    floats are ordered with an integer (a NaN is below and above nothing);
    [TypeError] on the other values. *)
Definition int_le (lo : Z) (v : json) : option bool :=
  match v with
  | JInt z => Some (lo <=? z)
  | JBool b => Some (lo <=? Z.b2z b)
  | JFloat f => Some (SFleb (Float64.of_int lo) f)
  | _ => None
  end.

(** [v <= hi] for an integer [hi]. *)
Definition le_int (v : json) (hi : Z) : option bool :=
  match v with
  | JInt z => Some (z <=? hi)
  | JBool b => Some (Z.b2z b <=? hi)
  | JFloat f => Some (SFleb f (Float64.of_int hi))
  | _ => None
  end.

End Py.

(** The settings file as the program sees it: [None] when the path does
    not exist, [Some None] when opening or parsing it raises, and the
    parsed value otherwise. *)
Definition settings_file : Type := option (option json).

Definition default_settings : PyDict.t json :=
  [("size", JInt 150); ("y_offset", JInt 15); ("x_offset", JInt (-10))].

(** One of the three statements
    [if key in settings and lo <= settings[key] <= hi: result[key] = settings[key]]. *)
Definition merge_setting (key : string) (lo hi : Z) (settings : json)
    (result : PyDict.t json) : option (PyDict.t json) :=
  present <- Py.contains key settings ;;
  if present then
    v <- Py.getitem settings key ;;
    above <- Py.int_le lo v ;;
    if above then
      below <- Py.le_int v hi ;;
      if below then
        v' <- Py.getitem settings key ;;
        Some (PyDict.set key v' result)
      else Some result
    else Some result
  else Some result.

(** [load_settings] *)
Definition load_settings (file : settings_file) : PyDict.t json :=
  match file with
  | Some content =>
      let validated :=
        settings <- content ;;
        result <- merge_setting "size" 50 500 settings default_settings ;;
        result <- merge_setting "y_offset" (-200) 200 settings result ;;
        merge_setting "x_offset" (-500) 500 settings result in
      match validated with
      | Some result => result
      | None => default_settings
      end
  | None => default_settings
  end.

(** How the write of [save_settings] ends: the dictionary is in the file,
    or an exception was raised and the file is left as [remains]. *)
Inductive write_outcome : Type :=
| Written
| WriteFailed (remains : settings_file).

(** [save_settings]; [argv] is [sys.argv]. *)
Definition save_settings (argv : list string) (disk : write_outcome)
    (size y_off x_off : Z) (file : settings_file) : settings_file :=
  if existsb (String.eqb "-testing") argv || existsb (String.eqb "--testing") argv
  then file
  else
    let settings :=
      JObject [("size", JInt size); ("y_offset", JInt y_off); ("x_offset", JInt x_off)] in
    match disk with
    | Written => Some (Some settings)
    | WriteFailed remains => remains
    end.

(** ** The adjustment dialog and quitting *)

(** What the spin boxes of the dialog can emit while it is open: their
    ranges are 50..500, -200..200 and -500..500; the timer keeps firing. *)
Definition in_dialog (e : event) : Prop :=
  match e with
  | Timeout _ _ _ => True
  | SizeChanged _ value => 50 <= value <= 500
  | YOffsetChanged _ value => -200 <= value <= 200
  | XOffsetChanged _ value => -500 <= value <= 500
  | Cancelled _ _ _ _ => False
  end.

(** How the dialog is left: the OK button, the Cancel button, or the
    window is closed, which runs neither callback. *)
Inductive dialog_outcome : Type :=
| ClickOk (argv : list string) (disk : write_outcome)
| ClickCancel (d : Desktop)
| CloseWindow.

(** [show_position_dialog]: the values at opening are kept for Cancel,
    [interaction] is what happens while [dialog.exec()] runs. *)
Definition show_position_dialog (interaction : list event) (outcome : dialog_outcome)
    (file : settings_file) (self : TaskbarCatOverlay)
    : TaskbarCatOverlay * settings_file :=
  let original_y_offset := y_offset self in
  let original_x_offset := x_offset self in
  let original_size := cat_size self in
  let self := run interaction self in
  match outcome with
  | ClickOk argv disk =>
      (self, save_settings argv disk (cat_size self) (y_offset self) (x_offset self) file)
  | ClickCancel d =>
      (on_cancel d original_size original_y_offset original_x_offset self, file)
  | CloseWindow => (self, file)
  end.

(** [quit_application], as far as the settings file goes. *)
Definition quit_application (argv : list string) (disk : write_outcome)
    (file : settings_file) (self : TaskbarCatOverlay) : settings_file :=
  save_settings argv disk (cat_size self) (y_offset self) (x_offset self) file.

(** The ranges that [load_settings] accepts and the spin boxes allow. *)
Definition settings_in_range (self : TaskbarCatOverlay) : Prop :=
  50 <= cat_size self <= 500
  /\ -200 <= y_offset self <= 200
  /\ -500 <= x_offset self <= 500.

(** The displayed image is the library's image of the current pose; the
    pose with the empty name is not refreshed by [update_cat_position]. *)
Definition display_ok (self : TaskbarCatOverlay) : Prop :=
  match current_pose self with
  | None => pixmap (label self) = None
  | Some p => p <> "" -> pixmap (label self) = PyDict.get p (pose_images self)
  end.

(** A file name the loader accepts. *)
Definition is_pose_file (filename : string) : bool :=
  PyStr.endswith filename ".png" && negb (PyStr.startswith filename "cat_").

(** [-dx], [-dy] on a direction name. *)
Definition mirror (dir : string) : string :=
  if dir == "left" then "right"
  else if dir == "right" then "left"
  else if dir == "up" then "down"
  else if dir == "down" then "up"
  else dir.

(** The three keys of the settings. *)
Definition setting_keys : list string := ["size"; "y_offset"; "x_offset"].

(** A JSON number, as Python orders it with an integer. *)
Definition is_number (v : json) : Prop :=
  match v with
  | JInt _ | JBool _ | JFloat _ => True
  | _ => False
  end.

(** The integer setting [key] of an object, when it is within its range,
    and [default] otherwise. *)
Definition int_setting (members : PyDict.t json) (key : string) (lo hi default : Z) : Z :=
  match PyDict.get key members with
  | Some (JInt z) => if (lo <=? z) && (z <=? hi) then z else default
  | _ => default
  end.

(** The shape that the three merges keep: the three keys in their order,
    each with a number, an integer being within the range of its key. *)
Definition settings_shape (r : PyDict.t json) : Prop :=
  PyDict.keys r = setting_keys
  /\ (forall k v, PyDict.get k r = Some v -> is_number v)
  /\ (forall z, PyDict.get "size" r = Some (JInt z) -> 50 <= z <= 500)
  /\ (forall z, PyDict.get "y_offset" r = Some (JInt z) -> -200 <= z <= 200)
  /\ (forall z, PyDict.get "x_offset" r = Some (JInt z) -> -500 <= z <= 500).

(** Every image of the library was read from the file named after its
    pose. *)
Definition files_ok (self : TaskbarCatOverlay) : Prop :=
  forall k px, PyDict.get k (pose_images self) = Some px -> image_file px = k ++ ".png".

(** The window is the square of side [cat_size]. *)
Definition geometry_ok (self : TaskbarCatOverlay) : Prop :=
  rect_width (geometry (label self)) = cat_size self
  /\ rect_height (geometry (label self)) = cat_size self.

(** A tick that reads the clock less than the cooldown after [last]. *)
Definition within_cooldown (last : Z) (e : event) : Prop :=
  match e with
  | Timeout _ current_time _ => current_time - last < POSE_CHANGE_COOLDOWN_MS
  | _ => False
  end.

(** The library after [__init__]. *)
Definition loaded (size : Z) (images_dir : option (list string)) : PyDict.t QPixmap :=
  match images_dir with
  | Some files => fold_left (load_image size) files []
  | None => []
  end.

(** * Properties *)

(** ** Facts on dictionaries *)

Lemma contains_In {V : Type} (k : string) (d : PyDict.t V) :
  PyDict.contains k d = true <-> In k (PyDict.keys d).
Proof.
  unfold PyDict.contains.
  induction d as [|[k' v] d IH]; simpl.
  - split; [discriminate | tauto].
  - destruct (String.eqb_spec k k') as [->|Hne].
    + split; auto.
    + rewrite IH. split; [auto | intros [H|H]; [congruence | exact H]].
Qed.

Lemma contains_false_In {V : Type} (k : string) (d : PyDict.t V) :
  PyDict.contains k d = false <-> ~ In k (PyDict.keys d).
Proof.
  rewrite <- contains_In. destruct (PyDict.contains k d); split; congruence.
Qed.

Lemma get_Some_In {V : Type} (k : string) (v : V) (d : PyDict.t V) :
  PyDict.get k d = Some v -> In k (PyDict.keys d).
Proof.
  intros H. apply contains_In. unfold PyDict.contains. now rewrite H.
Qed.

Lemma keys_set_present {V : Type} (k : string) (v : V) (d : PyDict.t V) :
  In k (PyDict.keys d) -> PyDict.keys (PyDict.set k v d) = PyDict.keys d.
Proof.
  induction d as [|[k' v'] d IH]; simpl; [tauto|].
  intros H. destruct (String.eqb_spec k k') as [->|Hne]; simpl; [reflexivity|].
  f_equal. apply IH. destruct H; [congruence | assumption].
Qed.

Lemma keys_set_In {V : Type} (k k0 : string) (v : V) (d : PyDict.t V) :
  In k0 (PyDict.keys d) -> In k0 (PyDict.keys (PyDict.set k v d)).
Proof.
  induction d as [|[k' v'] d IH]; simpl; [tauto|].
  intros H. destruct (String.eqb_spec k k'); simpl; tauto.
Qed.

Lemma len_pos_iff {V : Type} (d : PyDict.t V) :
  (PyDict.len d >? 0) = true <-> d <> [].
Proof.
  unfold PyDict.len. destruct d; simpl; split; try congruence; try discriminate.
  intros _. apply Z.gtb_lt. lia.
Qed.

(** ** Facts on the resolver *)

Lemma first_present_Some {V : Type} (cands : list string) (d : PyDict.t V) (c : string) :
  first_present cands d = Some c ->
  exists pre post, cands = (pre ++ c :: post)%list
    /\ In c (PyDict.keys d)
    /\ (forall x, In x pre -> ~ In x (PyDict.keys d)).
Proof.
  induction cands as [|a cands IH]; simpl; [discriminate|].
  destruct (PyDict.contains a d) eqn:Ha.
  - intros [= <-]. exists [], cands. repeat split.
    + now apply contains_In.
    + intros x [].
  - intros H. destruct (IH H) as (pre & post & -> & Hin & Hpre).
    exists (a :: pre), post. repeat split; auto.
    intros x [<-|Hx]; [now apply contains_false_In | now apply Hpre].
Qed.

Lemma first_present_first {V : Type} (pre post : list string) (c : string) (d : PyDict.t V) :
  In c (PyDict.keys d) ->
  (forall x, In x pre -> ~ In x (PyDict.keys d)) ->
  first_present (pre ++ c :: post)%list d = Some c.
Proof.
  intros Hc. induction pre as [|a pre IH]; simpl; intros Hpre.
  - apply contains_In in Hc. now rewrite Hc.
  - assert (Ha : PyDict.contains a d = false) by (apply contains_false_In, Hpre; auto).
    rewrite Ha. apply IH. intros x Hx. apply Hpre. auto.
Qed.

Lemma first_present_None {V : Type} (cands : list string) (d : PyDict.t V) :
  first_present cands d = None <-> (forall c, In c cands -> ~ In c (PyDict.keys d)).
Proof.
  induction cands as [|a cands IH]; simpl.
  - split; [intros _ c [] | reflexivity].
  - destruct (PyDict.contains a d) eqn:Ha.
    + split; [discriminate|]. intros H. exfalso.
      apply (H a); [auto | now apply contains_In].
    + rewrite IH. split.
      * intros H c [<-|Hc]; [now apply contains_false_In | now apply H].
      * intros H c Hc. apply H. auto.
Qed.

Lemma find_best_pose_In {V : Type} (d : PyDict.t V) (h hi v vi p : string) :
  find_best_pose d h hi v vi = Some p -> In p (PyDict.keys d).
Proof.
  unfold find_best_pose.
  destruct (first_present (candidates h hi v vi) d) as [c|] eqn:Hc.
  - intros [= <-]. destruct (first_present_Some _ _ _ Hc) as (_ & _ & _ & H & _). exact H.
  - destruct (PyDict.contains "forward" d) eqn:Hf.
    + intros [= <-]. now apply contains_In.
    + destruct (PyDict.len d >? 0); [|discriminate].
      destruct d as [|[k x] d]; simpl; [discriminate|]. intros [= <-]. auto.
Qed.

Lemma find_best_pose_None {V : Type} (d : PyDict.t V) (h hi v vi : string) :
  find_best_pose d h hi v vi = None <-> d = [].
Proof.
  split.
  - unfold find_best_pose.
    destruct (first_present (candidates h hi v vi) d); [discriminate|].
    destruct (PyDict.contains "forward" d); [discriminate|].
    destruct d as [|[k x] d]; [reflexivity|].
    replace (PyDict.len ((k, x) :: d) >? 0) with true; [discriminate|].
    symmetry. apply len_pos_iff. discriminate.
  - intros ->. unfold find_best_pose.
    replace (first_present (candidates h hi v vi) (@nil (string * V))) with (@None string).
    + reflexivity.
    + symmetry. apply first_present_None. intros c _ [].
Qed.

(** ** The direction classifier *)

(** The half thresholds: floor division and division truncating towards
    zero agree on them, on both signs. *)
Lemma half_thresholds :
  (- H_WEAK_THRESHOLD) / 2 = - Z.quot H_WEAK_THRESHOLD 2
  /\ H_WEAK_THRESHOLD / 2 = Z.quot H_WEAK_THRESHOLD 2
  /\ Z.quot H_WEAK_THRESHOLD 2 = 30
  /\ (- V_THRESHOLD) / 2 = - Z.quot V_THRESHOLD 2
  /\ V_THRESHOLD / 2 = Z.quot V_THRESHOLD 2
  /\ Z.quot V_THRESHOLD 2 = 40.
Proof. repeat split; reflexivity. Qed.

(** The two comparisons of the classifier, as case analyses. *)
Ltac split_comparisons :=
  repeat match goal with
  | |- context [?a <? ?b] => destruct (Z.ltb_spec a b)
  | |- context [?a >? ?b] => rewrite (Z.gtb_ltb a b); destruct (Z.ltb_spec b a)
  end.

Ltac classify :=
  unfold determine_direction, horizontal, vertical,
    H_STRONG_THRESHOLD, H_WEAK_THRESHOLD, V_THRESHOLD;
  change (Z.opp 100) with (-100); change (Z.opp 80) with (-80);
  change (Z.opp 60 / 2) with (-30); change (Z.opp 60) with (-60);
  change (60 / 2) with 30;
  change ((-80) / 2) with (-40); change (80 / 2) with 40;
  split_comparisons; try reflexivity; try lia.

Lemma horizontal_table (dx dy : Z) :
  (dx < -100 -> horizontal (determine_direction dx dy) = ("left", "far"))
  /\ (-100 <= dx < -60 -> horizontal (determine_direction dx dy) = ("left", "normal"))
  /\ (-60 <= dx < -30 -> horizontal (determine_direction dx dy) = ("left", "slight"))
  /\ (dx > 100 -> horizontal (determine_direction dx dy) = ("right", "far"))
  /\ (60 < dx <= 100 -> horizontal (determine_direction dx dy) = ("right", "normal"))
  /\ (30 < dx <= 60 -> horizontal (determine_direction dx dy) = ("right", "slight"))
  /\ (Z.abs dx <= 30 -> horizontal (determine_direction dx dy) = ("forward", "normal")).
Proof. repeat split; intros H; classify. Qed.

Lemma vertical_table (dx dy : Z) :
  (dy < -80 -> vertical (determine_direction dx dy) = ("up", "normal"))
  /\ (-80 <= dy < -40 -> vertical (determine_direction dx dy) = ("up", "slight"))
  /\ (dy > 80 -> vertical (determine_direction dx dy) = ("down", "normal"))
  /\ (40 < dy <= 80 -> vertical (determine_direction dx dy) = ("down", "slight"))
  /\ (-40 <= dy <= 40 -> vertical (determine_direction dx dy) = ("center", "normal")).
Proof. repeat split; intros H; classify. Qed.

Lemma axes_independent (dx dy dx' dy' : Z) :
  horizontal (determine_direction dx dy') = horizontal (determine_direction dx dy)
  /\ vertical (determine_direction dx' dy) = vertical (determine_direction dx dy).
Proof. split; classify. Qed.

Lemma descriptor_of_axes (dx dy : Z) :
  determine_direction dx dy =
  (fst (horizontal (determine_direction dx dy)),
   snd (horizontal (determine_direction dx dy)),
   fst (vertical (determine_direction dx dy)),
   snd (vertical (determine_direction dx dy))).
Proof. classify. Qed.

(** C1.  [determine_direction] is a total function of the two integers, and
    for every [dx] and [dy] its horizontal pair and its vertical pair are
    the rows of the two threshold tables: left far below -100, left normal
    on [-100, -60), left slight on [-60, -30), right far above 100, right
    normal on (60, 100], right slight on (30, 60], forward normal on
    [-30, 30]; up normal below -80, up slight on [-80, -40), down normal
    above 80, down slight on (40, 80], otherwise center normal.  The bounds
    30 and 40 are the integer halves of the weak and the vertical threshold,
    floor and truncation agreeing on them, and each axis is classified from
    its own coordinate alone. *)
Theorem determine_direction_table : forall dx dy : Z,
  ((dx < -100 -> horizontal (determine_direction dx dy) = ("left", "far"))
   /\ (-100 <= dx < -60 -> horizontal (determine_direction dx dy) = ("left", "normal"))
   /\ (-60 <= dx < -30 -> horizontal (determine_direction dx dy) = ("left", "slight"))
   /\ (dx > 100 -> horizontal (determine_direction dx dy) = ("right", "far"))
   /\ (60 < dx <= 100 -> horizontal (determine_direction dx dy) = ("right", "normal"))
   /\ (30 < dx <= 60 -> horizontal (determine_direction dx dy) = ("right", "slight"))
   /\ (Z.abs dx <= 30 -> horizontal (determine_direction dx dy) = ("forward", "normal")))
  /\ ((dy < -80 -> vertical (determine_direction dx dy) = ("up", "normal"))
   /\ (-80 <= dy < -40 -> vertical (determine_direction dx dy) = ("up", "slight"))
   /\ (dy > 80 -> vertical (determine_direction dx dy) = ("down", "normal"))
   /\ (40 < dy <= 80 -> vertical (determine_direction dx dy) = ("down", "slight"))
   /\ (-40 <= dy <= 40 -> vertical (determine_direction dx dy) = ("center", "normal")))
  /\ ((- H_WEAK_THRESHOLD) / 2 = - Z.quot H_WEAK_THRESHOLD 2
   /\ H_WEAK_THRESHOLD / 2 = Z.quot H_WEAK_THRESHOLD 2
   /\ Z.quot H_WEAK_THRESHOLD 2 = 30
   /\ (- V_THRESHOLD) / 2 = - Z.quot V_THRESHOLD 2
   /\ V_THRESHOLD / 2 = Z.quot V_THRESHOLD 2
   /\ Z.quot V_THRESHOLD 2 = 40)
  /\ (forall dx' dy' : Z,
       horizontal (determine_direction dx dy') = horizontal (determine_direction dx dy)
       /\ vertical (determine_direction dx' dy) = vertical (determine_direction dx dy))
  /\ determine_direction dx dy =
     (fst (horizontal (determine_direction dx dy)),
      snd (horizontal (determine_direction dx dy)),
      fst (vertical (determine_direction dx dy)),
      snd (vertical (determine_direction dx dy))).
Proof.
  intros dx dy.
  split; [apply horizontal_table|].
  split; [apply vertical_table|].
  split; [apply half_thresholds|].
  split; [intros dx' dy'; apply axes_independent|].
  apply descriptor_of_axes.
Qed.

(** C6, as the specification states it, fails at [dx = -60]: the comparison
    with the weak threshold is strict, so -60 is still a slight turn. *)
Lemma boundary_minus_60_is_slight :
  horizontal (determine_direction (-60) 0) = ("left", "slight")
  /\ horizontal (determine_direction (-60) 0) <> ("left", "normal").
Proof. split; [reflexivity | discriminate]. Qed.

(** C6, amended.  On the left boundaries, whatever [dy] is: -61 is the
    first normal left turn, and -60, -59 and -31 are slight left turns;
    -30 is forward. *)
Theorem horizontal_boundaries : forall dy : Z,
  horizontal (determine_direction (-61) dy) = ("left", "normal")
  /\ horizontal (determine_direction (-60) dy) = ("left", "slight")
  /\ horizontal (determine_direction (-59) dy) = ("left", "slight")
  /\ horizontal (determine_direction (-31) dy) = ("left", "slight")
  /\ horizontal (determine_direction (-30) dy) = ("forward", "normal").
Proof. intros dy. repeat split; classify. Qed.

(** C8.  A pointer within 30 pixels horizontally and 40 vertically of the
    anchor is classified forward and center; and the two sample points are
    classified as the specification lists them. *)
Theorem near_anchor_is_forward_center : forall dx dy : Z,
  Z.abs dx <= 30 -> Z.abs dy <= 40 ->
  (exists h_intensity v_intensity,
     determine_direction dx dy = ("forward", h_intensity, "center", v_intensity))
  /\ determine_direction (-150) (-200) = ("left", "far", "up", "normal")
  /\ determine_direction 70 50 = ("right", "normal", "down", "slight").
Proof.
  intros dx dy Hx Hy. split; [|split; reflexivity].
  exists "normal", "normal". classify.
Qed.

Lemma near_anchor_is_forward_center_witness :
  (exists h_intensity v_intensity,
     determine_direction (-30) 40 = ("forward", h_intensity, "center", v_intensity))
  /\ determine_direction (-150) (-200) = ("left", "far", "up", "normal")
  /\ determine_direction 70 50 = ("right", "normal", "down", "slight").
Proof. apply (near_anchor_is_forward_center (-30) 40); simpl; lia. Defined.

(** ** The pose resolver *)

Lemma target_pose_empty (self : TaskbarCatOverlay) (mouse : Z * Z) :
  pose_images self = [] -> target_pose self mouse = None.
Proof.
  intros He. unfold target_pose.
  destruct (relative_position self mouse) as [dx dy].
  destruct (determine_direction dx dy) as [[[h hi] v] vi].
  apply find_best_pose_None. exact He.
Qed.

Lemma update_orientation_empty (mouse : Z * Z) (current_time now : Z)
    (self : TaskbarCatOverlay) :
  pose_images self = [] -> update_orientation mouse current_time now self = self.
Proof.
  intros He. unfold update_orientation. now rewrite (target_pose_empty _ _ He).
Qed.

(** C2.  For every descriptor and every library, [find_best_pose] returns
    the first candidate of the list that is a key of the library; when no
    candidate is a key it returns "forward" if that is a key, and otherwise
    the first key of the library in its own order; it returns no pose
    exactly when the library is empty (it is a total function: nothing is
    raised); and with an empty library the timer callback leaves the whole
    overlay, the displayed image included, as it was. *)
Theorem find_best_pose_spec :
  forall (pose_images0 : PyDict.t QPixmap) (h_dir h_intensity v_dir v_intensity : string),
  let cands := candidates h_dir h_intensity v_dir v_intensity in
  let result := find_best_pose pose_images0 h_dir h_intensity v_dir v_intensity in
  (forall pre c post,
      cands = (pre ++ c :: post)%list ->
      In c (PyDict.keys pose_images0) ->
      (forall x, In x pre -> ~ In x (PyDict.keys pose_images0)) ->
      result = Some c)
  /\ ((forall c, In c cands -> ~ In c (PyDict.keys pose_images0)) ->
      In "forward" (PyDict.keys pose_images0) ->
      result = Some "forward")
  /\ ((forall c, In c cands -> ~ In c (PyDict.keys pose_images0)) ->
      ~ In "forward" (PyDict.keys pose_images0) ->
      result = hd_error (PyDict.keys pose_images0))
  /\ (result = None <-> pose_images0 = [])
  /\ (forall (self : TaskbarCatOverlay) (mouse : Z * Z) (current_time now : Z),
      pose_images self = [] ->
      target_pose self mouse = None
      /\ update_orientation mouse current_time now self = self).
Proof.
  intros d h hi v vi cands result. subst cands result.
  split; [|split; [|split; [|split]]].
  - intros pre c post Hc Hin Hpre. unfold find_best_pose.
    rewrite Hc, (first_present_first pre post c d Hin Hpre). reflexivity.
  - intros Hno Hf. unfold find_best_pose.
    apply first_present_None in Hno. rewrite Hno.
    apply contains_In in Hf. now rewrite Hf.
  - intros Hno Hf. unfold find_best_pose.
    apply first_present_None in Hno. rewrite Hno.
    apply contains_false_In in Hf. rewrite Hf.
    destruct d as [|[k x] d]; [reflexivity|].
    replace (PyDict.len ((k, x) :: d) >? 0) with true; [reflexivity|].
    symmetry. apply len_pos_iff. discriminate.
  - apply find_best_pose_None.
  - intros self mouse current_time now He. split.
    + now apply target_pose_empty.
    + now apply update_orientation_empty.
Qed.

Lemma neq_eqb (a b : string) : a <> b -> (a == b) = false.
Proof. apply String.eqb_neq. Qed.

(** The library whose keys are exactly "left" and "forward". *)
Lemma left_forward_library {V : Type} (d : PyDict.t V) :
  (forall k, In k (PyDict.keys d) <-> k = "left" \/ k = "forward") ->
  find_best_pose d "left" "slight" "center" "normal" = Some "left".
Proof.
  intros Hk. unfold find_best_pose.
  change (candidates "left" "slight" "center" "normal")
    with (["forward_left"] ++ "left" :: ["left_center"; "forward"])%list.
  rewrite first_present_first; [reflexivity | apply Hk; auto |].
  intros x [<-|[]] H. apply Hk in H. destruct H; discriminate.
Qed.

(** C4.  For a slight turn to the side [h] (left or right): with the
    vertical direction center the candidates are forward_h, h, h_center,
    forward; with another vertical direction [v] they are the nine names
    forward_h_slight_v and forward_h_v (the one of the vertical intensity
    first), forward_h, h_slight_v and h_v (same order), h, forward_slight_v
    and forward_v (same order), forward.  Hence a library with exactly the
    keys left and forward answers left to (left, slight, center, normal). *)
Theorem slight_side_candidates :
  forall h v v_intensity : string,
  h = "left" \/ h = "right" ->
  candidates h "slight" "center" v_intensity
    = ["forward_" ++ h; h; h ++ "_center"; "forward"]
  /\ (v <> "center" ->
      candidates h "slight" v "slight"
      = ["forward_" ++ h ++ "_slight_" ++ v; "forward_" ++ h ++ "_" ++ v;
         "forward_" ++ h;
         h ++ "_slight_" ++ v; h ++ "_" ++ v; h;
         "forward_slight_" ++ v; "forward_" ++ v; "forward"])
  /\ (v <> "center" -> v_intensity <> "slight" ->
      candidates h "slight" v v_intensity
      = ["forward_" ++ h ++ "_" ++ v; "forward_" ++ h ++ "_slight_" ++ v;
         "forward_" ++ h;
         h ++ "_" ++ v; h ++ "_slight_" ++ v; h;
         "forward_" ++ v; "forward_slight_" ++ v; "forward"])
  /\ (forall pose_images0 : PyDict.t QPixmap,
      (forall k, In k (PyDict.keys pose_images0) <-> k = "left" \/ k = "forward") ->
      find_best_pose pose_images0 "left" "slight" "center" "normal" = Some "left").
Proof.
  intros h v vi Hh. repeat split.
  - destruct Hh as [-> | ->]; reflexivity.
  - intros Hv. unfold candidates. rewrite (neq_eqb _ _ Hv).
    destruct Hh as [-> | ->]; reflexivity.
  - intros Hv Hvi. unfold candidates. rewrite (neq_eqb _ _ Hv), (neq_eqb _ _ Hvi).
    destruct Hh as [-> | ->]; reflexivity.
  - apply left_forward_library.
Qed.

Lemma slight_side_candidates_witness :
  candidates "left" "slight" "center" "normal"
    = ["forward_left"; "left"; "left_center"; "forward"]
  /\ candidates "left" "slight" "up" "slight"
    = ["forward_left_slight_up"; "forward_left_up"; "forward_left";
       "left_slight_up"; "left_up"; "left";
       "forward_slight_up"; "forward_up"; "forward"]
  /\ candidates "left" "slight" "up" "normal"
    = ["forward_left_up"; "forward_left_slight_up"; "forward_left";
       "left_up"; "left_slight_up"; "left";
       "forward_up"; "forward_slight_up"; "forward"]
  /\ find_best_pose [("forward", mkPixmap "forward.png" 150);
                     ("left", mkPixmap "left.png" 150)]
       "left" "slight" "center" "normal" = Some "left".
Proof.
  destruct (slight_side_candidates "left" "up" "normal" (or_introl eq_refl))
    as (Hc & Hs & Hn & Hl).
  split; [exact Hc|].
  split; [apply Hs; discriminate|].
  split; [apply Hn; discriminate|].
  apply Hl. intros k. simpl. intuition congruence.
Defined.

(** C5.  For a far turn to the side [h] (left or right): with the vertical
    direction center the candidates are h_h, h, h_center; with another
    vertical direction [v] they are h_slight_v, h_v, h_h, h when the
    vertical intensity is slight and h_v, h_slight_v, h_h, h otherwise. *)
Theorem far_side_candidates :
  forall h v v_intensity : string,
  h = "left" \/ h = "right" ->
  candidates h "far" "center" v_intensity = [h ++ "_" ++ h; h; h ++ "_center"]
  /\ (v <> "center" ->
      candidates h "far" v "slight"
      = [h ++ "_slight_" ++ v; h ++ "_" ++ v; h ++ "_" ++ h; h])
  /\ (v <> "center" -> v_intensity <> "slight" ->
      candidates h "far" v v_intensity
      = [h ++ "_" ++ v; h ++ "_slight_" ++ v; h ++ "_" ++ h; h]).
Proof.
  intros h v vi Hh. repeat split.
  - destruct Hh as [-> | ->]; reflexivity.
  - intros Hv. unfold candidates. rewrite (neq_eqb _ _ Hv).
    destruct Hh as [-> | ->]; reflexivity.
  - intros Hv Hvi. unfold candidates. rewrite (neq_eqb _ _ Hv), (neq_eqb _ _ Hvi).
    destruct Hh as [-> | ->]; reflexivity.
Qed.

Lemma far_side_candidates_witness :
  candidates "right" "far" "center" "normal"
    = ["right_right"; "right"; "right_center"]
  /\ candidates "right" "far" "down" "slight"
    = ["right_slight_down"; "right_down"; "right_right"; "right"]
  /\ candidates "right" "far" "down" "normal"
    = ["right_down"; "right_slight_down"; "right_right"; "right"].
Proof.
  destruct (far_side_candidates "right" "down" "normal" (or_intror eq_refl))
    as (Hc & Hs & Hn).
  split; [exact Hc|].
  split; [apply Hs; discriminate | apply Hn; discriminate].
Defined.

(** ** The cooldown gate *)

Lemma pose_eqb_true (p : string) (c : option string) :
  pose_eqb p c = true <-> c = Some p.
Proof.
  destruct c as [q|]; simpl.
  - rewrite String.eqb_eq. split; [intros -> | intros [= ->]]; reflexivity.
  - split; discriminate.
Qed.

Lemma pose_eqb_false (p : string) (c : option string) :
  pose_eqb p c = false <-> c <> Some p.
Proof.
  rewrite <- pose_eqb_true. destruct (pose_eqb p c); split; congruence.
Qed.

(** What [set_pose] does with a key of the library that is not displayed. *)
Lemma set_pose_commit (now : Z) (p : string) (self : TaskbarCatOverlay) :
  In p (PyDict.keys (pose_images self)) ->
  current_pose self <> Some p ->
  exists px,
    PyDict.get p (pose_images self) = Some px
    /\ set_pose now p self
       = mkOverlay (Some p) now (pose_images self) (cat_size self)
                   (y_offset self) (x_offset self) (setPixmap px (label self)).
Proof.
  intros Hin Hne. unfold set_pose.
  apply pose_eqb_false in Hne. rewrite Hne.
  apply contains_In in Hin. unfold PyDict.contains in Hin.
  destruct (PyDict.get p (pose_images self)) as [px|]; [|discriminate].
  exists px. split; reflexivity.
Qed.

Lemma target_pose_In (self : TaskbarCatOverlay) (mouse : Z * Z) (p : string) :
  target_pose self mouse = Some p -> In p (PyDict.keys (pose_images self)).
Proof.
  unfold target_pose.
  destruct (relative_position self mouse) as [dx dy].
  destruct (determine_direction dx dy) as [[[h hi] v] vi].
  apply find_best_pose_In.
Qed.

(** The target depends on the library and on the geometry of the label. *)
Lemma target_pose_ext (s1 s2 : TaskbarCatOverlay) (mouse : Z * Z) :
  pose_images s1 = pose_images s2 ->
  geometry (label s1) = geometry (label s2) ->
  target_pose s1 mouse = target_pose s2 mouse.
Proof.
  intros Hi Hg.
  unfold target_pose, relative_position, get_cat_anchor_point.
  now rewrite Hi, Hg.
Qed.

(** A tick whose gate is open. *)
Lemma update_orientation_commit (mouse : Z * Z) (current_time now : Z)
    (self : TaskbarCatOverlay) (target : string) :
  target_pose self mouse = Some target ->
  current_pose self <> Some target ->
  current_time - last_change_time self >= POSE_CHANGE_COOLDOWN_MS ->
  exists px,
    PyDict.get target (pose_images self) = Some px
    /\ update_orientation mouse current_time now self
       = mkOverlay (Some target) now (pose_images self) (cat_size self)
                   (y_offset self) (x_offset self) (setPixmap px (label self)).
Proof.
  intros Ht Hne Hcool.
  destruct (set_pose_commit now target self (target_pose_In _ _ _ Ht) Hne)
    as (px & Hget & Hset).
  exists px. split; [exact Hget|].
  unfold update_orientation. rewrite Ht.
  apply pose_eqb_false in Hne. rewrite Hne. simpl negb. cbv iota.
  replace (current_time - last_change_time self >=? POSE_CHANGE_COOLDOWN_MS) with true.
  - exact Hset.
  - symmetry. apply Z.geb_le. lia.
Qed.

(** A tick whose gate is closed, or whose target is displayed already. *)
Lemma update_orientation_blocked (mouse : Z * Z) (current_time now : Z)
    (self : TaskbarCatOverlay) (target : string) :
  target_pose self mouse = Some target ->
  ~ (current_pose self <> Some target
     /\ current_time - last_change_time self >= POSE_CHANGE_COOLDOWN_MS) ->
  update_orientation mouse current_time now self = self.
Proof.
  intros Ht Hno. unfold update_orientation. rewrite Ht.
  destruct (pose_eqb target (current_pose self)) eqn:He; [reflexivity|].
  apply pose_eqb_false in He. simpl negb. cbv iota.
  destruct (Z.geb_spec (current_time - last_change_time self) POSE_CHANGE_COOLDOWN_MS)
    as [Hge|Hlt]; [|reflexivity].
  exfalso. apply Hno. split; [exact He | lia].
Qed.

(** C3.  On a tick with a resolved target, the target is committed exactly
    when it differs from [current_pose] and the clock read by the tick is at
    least 150 ms after [last_change_time]: then [current_pose] is the
    target, the label shows the target's image and [last_change_time] is
    the clock value the commit reads during that tick; otherwise the whole
    overlay ([current_pose], [last_change_time], the displayed image) is
    unchanged.  In particular, after a change committed at [now], a
    different target resolved at [now + 100] changes nothing, and the same
    target at [now + 151] becomes the current pose. *)
Theorem cooldown_gate :
  forall (self : TaskbarCatOverlay) (mouse : Z * Z) (current_time now : Z) (target : string),
  target_pose self mouse = Some target ->
  let gate_open :=
    current_pose self <> Some target
    /\ current_time - last_change_time self >= 150 in
  let self' := update_orientation mouse current_time now self in
  (gate_open ->
     current_pose self' = Some target
     /\ last_change_time self' = now
     /\ pixmap (label self') = PyDict.get target (pose_images self)
     /\ pixmap (label self') <> None)
  /\ (~ gate_open -> self' = self)
  /\ (gate_open ->
      forall (mouse2 : Z * Z) (now2 now3 : Z) (target2 : string),
      target_pose self' mouse2 = Some target2 ->
      target2 <> target ->
      update_orientation mouse2 (now + 100) now2 self' = self'
      /\ current_pose (update_orientation mouse2 (now + 151) now3 self') = Some target2).
Proof.
  intros self mouse current_time now target Ht gate_open self'.
  subst gate_open self'.
  split; [|split].
  - intros [Hne Hcool].
    destruct (update_orientation_commit mouse current_time now self target Ht Hne)
      as (px & Hget & ->); [unfold POSE_CHANGE_COOLDOWN_MS; lia|].
    simpl. rewrite Hget. repeat split. discriminate.
  - intros Hno. apply (update_orientation_blocked _ _ _ _ target Ht).
    unfold POSE_CHANGE_COOLDOWN_MS. exact Hno.
  - intros [Hne Hcool] mouse2 now2 now3 target2 Ht2 Hdiff.
    destruct (update_orientation_commit mouse current_time now self target Ht Hne)
      as (px & Hget & Heq); [unfold POSE_CHANGE_COOLDOWN_MS; lia|].
    rewrite Heq in *. split.
    + apply (update_orientation_blocked _ _ _ _ target2 Ht2).
      simpl. unfold POSE_CHANGE_COOLDOWN_MS. lia.
    + destruct (update_orientation_commit mouse2 (now + 151) now3 _ target2 Ht2)
        as (px2 & _ & ->); simpl.
      * congruence.
      * unfold POSE_CHANGE_COOLDOWN_MS. lia.
      * reflexivity.
Qed.

Lemma cooldown_gate_witness :
  let self' := update_orientation Example.pointer_left 1150 1151 Example.cat in
  current_pose Example.cat = Some "forward"
  /\ last_change_time Example.cat = 1000
  /\ current_pose self' = Some "left"
  /\ last_change_time self' = 1151
  /\ update_orientation Example.pointer_centre 1251 1252 self' = self'
  /\ current_pose (update_orientation Example.pointer_centre 1302 1303 self')
     = Some "forward".
Proof.
  pose proof (cooldown_gate Example.cat Example.pointer_left 1150 1151 "left" eq_refl)
    as (Hopen & _ & Hnext).
  assert (Hgate : current_pose Example.cat <> Some "left"
                  /\ 1150 - last_change_time Example.cat >= 150)
    by (split; [discriminate | vm_compute; discriminate]).
  destruct (Hopen Hgate) as (Hp & Ht & _).
  destruct (Hnext Hgate Example.pointer_centre 1252 1303 "forward" eq_refl)
    as (Hblocked & Hchanged); [discriminate|].
  repeat split; try assumption; reflexivity.
Defined.

(** ** Two consecutive ticks *)

(** C7, as the specification states it, fails when the first of the two
    ticks is held back by the cooldown: the overlay shows forward since
    clock 1000, the pointer sits far to the left; the tick at 1075 changes
    nothing, and the tick at 1150, with the same pointer and the same
    window, turns the cat to the left. *)
Lemma second_tick_changes_pose :
  let first := update_orientation Example.pointer_left 1075 1075 Example.cat in
  let second := update_orientation Example.pointer_left 1150 1150 first in
  current_pose Example.cat = Some "forward"
  /\ geometry (label first) = geometry (label Example.cat)
  /\ geometry (label second) = geometry (label first)
  /\ current_pose first = Some "forward"
  /\ current_pose second = Some "left"
  /\ current_pose second <> current_pose first.
Proof. vm_compute. repeat split; discriminate. Qed.

(** C7, amended.  When the first of two ticks with the same pointer
    position is not held back by the cooldown (150 ms have passed since the
    last change, or its target is what [current_pose] already is), the
    second tick leaves the overlay, and so [current_pose], as the first
    tick left it, whatever the clock reads; the window geometry is the
    same at both ticks. *)
Theorem second_tick_idempotent :
  forall (self : TaskbarCatOverlay) (mouse : Z * Z) (t1 now1 t2 now2 : Z),
  t1 - last_change_time self >= 150 \/ target_pose self mouse = current_pose self ->
  let first := update_orientation mouse t1 now1 self in
  geometry (label first) = geometry (label self)
  /\ update_orientation mouse t2 now2 first = first
  /\ current_pose (update_orientation mouse t2 now2 first) = current_pose first.
Proof.
  intros self mouse t1 now1 t2 now2 Hfree first.
  assert (Hgoal : geometry (label first) = geometry (label self)
                  /\ update_orientation mouse t2 now2 first = first).
  { subst first.
    destruct (target_pose self mouse) as [target|] eqn:Ht.
    - destruct (pose_eqb target (current_pose self)) eqn:He.
      + (* the target is displayed already *)
        assert (H1 : update_orientation mouse t1 now1 self = self).
        { apply (update_orientation_blocked _ _ _ _ target Ht).
          apply pose_eqb_true in He. intros [Hne _]. congruence. }
        rewrite H1. split; [reflexivity|].
        apply (update_orientation_blocked _ _ _ _ target Ht).
        apply pose_eqb_true in He. intros [Hne _]. congruence.
      + (* the first tick commits *)
        apply pose_eqb_false in He.
        assert (Hcool : t1 - last_change_time self >= POSE_CHANGE_COOLDOWN_MS).
        { unfold POSE_CHANGE_COOLDOWN_MS. destruct Hfree as [H|H]; [lia | congruence]. }
        destruct (update_orientation_commit mouse t1 now1 self target Ht He Hcool)
          as (px & _ & ->).
        split; [reflexivity|].
        apply (update_orientation_blocked _ _ _ _ target).
        * rewrite <- Ht. apply target_pose_ext; reflexivity.
        * simpl. intros [Hne _]. congruence.
    - unfold update_orientation. rewrite Ht. split; [reflexivity|].
      unfold update_orientation. now rewrite Ht. }
  destruct Hgoal as [Hg Hu]. split; [exact Hg|]. split; [exact Hu|].
  now rewrite Hu.
Qed.

Lemma second_tick_idempotent_witness :
  let first := update_orientation Example.pointer_left 1150 1150 Example.cat in
  geometry (label first) = geometry (label Example.cat)
  /\ update_orientation Example.pointer_left 1225 1225 first = first
  /\ current_pose (update_orientation Example.pointer_left 1225 1225 first)
     = current_pose first.
Proof.
  apply (second_tick_idempotent Example.cat Example.pointer_left 1150 1150 1225 1225).
  left. vm_compute. discriminate.
Defined.

(** ** The anchor point *)

Lemma max_side_Z : Z.of_nat max_side = 4096.
Proof. reflexivity. Qed.

Lemma anchor_products_agree_upto :
  forallb anchor_products_agree (seq 0 (S max_side)) = true.
Proof. vm_compute. reflexivity. Qed.

Lemma anchor_products (side : Z) :
  0 <= side <= 4096 ->
  Float64.to_int (Float64.mul (Float64.of_int side) anchor_x_ratio) = Z.quot side 2
  /\ Float64.to_int (Float64.mul (Float64.of_int side) anchor_y_ratio)
     = Z.quot (33 * side) 100.
Proof.
  intros Hs.
  pose proof anchor_products_agree_upto as H.
  rewrite forallb_forall in H.
  specialize (H (Z.to_nat side)).
  assert (Hin : In (Z.to_nat side) (seq 0 (S max_side))).
  { apply in_seq. pose proof max_side_Z. lia. }
  apply H in Hin. unfold anchor_products_agree in Hin.
  rewrite Z2Nat.id in Hin by lia.
  apply andb_prop in Hin. destruct Hin as [Hx Hy].
  split; now apply Z.eqb_eq.
Qed.

(** The ratios are the binary64 values of the literals 0.5 and 0.33: the
    first is one half, the second is within half a unit in the last place
    (2^-55) of 33/100. *)
Lemma anchor_ratio_values :
  (Float64.to_Q anchor_x_ratio == 1 # 2)%Q
  /\ (Qabs (Float64.to_Q anchor_y_ratio - (33 # 100)) <= 1 # (2 ^ 55))%Q.
Proof. split; vm_compute; [reflexivity | discriminate]. Qed.

(** C9, as the specification states it, fails on the default cat of side
    150: the anchor is an integer point, 49 pixels below the top of the box
    and not 49.5. *)
Lemma anchor_point_is_truncated :
  geometry (label Example.cat) = mkRect 1760 905 150 150
  /\ get_cat_anchor_point Example.cat = (1835, 954)
  /\ (snd (anchor_point_spec 1760 905 150 150) == 1909 # 2)%Q
  /\ ~ (inject_Z (snd (get_cat_anchor_point Example.cat))
        == snd (anchor_point_spec 1760 905 150 150))%Q.
Proof.
  split; [reflexivity|]. split; [reflexivity|]. split; [reflexivity|].
  vm_compute. discriminate.
Qed.

(** C9, amended.  For every bounding box (x, y, width, height) with sides
    between 0 and 4096 pixels, the anchor point from which the displacement
    is measured is (x + width * 0.5, y + height * 0.33) with each product
    cut to an integer towards zero, that is (x + width / 2, y + 33 * height
    / 100) in integer division; it lies less than one pixel above and to the
    left of the point of the specification.  The two ratios are constants
    of the program: one half, and the binary64 number nearest to 33/100. *)
Theorem anchor_point_truncates :
  forall (self : TaskbarCatOverlay) (x y width height : Z) (mouse_x mouse_y : Z),
  geometry (label self) = mkRect x y width height ->
  0 <= width <= 4096 ->
  0 <= height <= 4096 ->
  get_cat_anchor_point self = anchor_point_int x y width height
  /\ relative_position self (mouse_x, mouse_y)
     = (mouse_x - (x + Z.quot width 2), mouse_y - (y + Z.quot (33 * height) 100))
  /\ (inject_Z (fst (get_cat_anchor_point self))
        <= fst (anchor_point_spec x y width height)
      /\ fst (anchor_point_spec x y width height)
        < inject_Z (fst (get_cat_anchor_point self)) + 1)%Q
  /\ (inject_Z (snd (get_cat_anchor_point self))
        <= snd (anchor_point_spec x y width height)
      /\ snd (anchor_point_spec x y width height)
        < inject_Z (snd (get_cat_anchor_point self)) + 1)%Q
  /\ (Float64.to_Q anchor_x_ratio == 1 # 2)%Q
  /\ (Qabs (Float64.to_Q anchor_y_ratio - (33 # 100)) <= 1 # (2 ^ 55))%Q.
Proof.
  intros self x y w h mx my Hg Hw Hh.
  cut ((get_cat_anchor_point self = anchor_point_int x y w h
        /\ relative_position self (mx, my)
           = (mx - (x + Z.quot w 2), my - (y + Z.quot (33 * h) 100)))
       /\ (inject_Z (fst (get_cat_anchor_point self))
             <= fst (anchor_point_spec x y w h)
           /\ fst (anchor_point_spec x y w h)
             < inject_Z (fst (get_cat_anchor_point self)) + 1)%Q
       /\ (inject_Z (snd (get_cat_anchor_point self))
             <= snd (anchor_point_spec x y w h)
           /\ snd (anchor_point_spec x y w h)
             < inject_Z (snd (get_cat_anchor_point self)) + 1)%Q).
  { pose proof anchor_ratio_values. tauto. }
  assert (Ha : get_cat_anchor_point self = anchor_point_int x y w h).
  { unfold get_cat_anchor_point, anchor_point_int. rewrite Hg. simpl.
    destruct (anchor_products w Hw) as [-> _].
    destruct (anchor_products h Hh) as [_ ->]. reflexivity. }
  split; [split; [exact Ha | unfold relative_position; rewrite Ha; reflexivity]|].
  rewrite Ha. unfold anchor_point_int, anchor_point_spec. cbn [fst snd].
  rewrite (Z.quot_div_nonneg w 2), (Z.quot_div_nonneg (33 * h) 100) by lia.
  pose proof (Z.div_mod w 2 ltac:(lia)) as Dw.
  pose proof (Z.mod_pos_bound w 2 ltac:(lia)) as Bw.
  pose proof (Z.div_mod (33 * h) 100 ltac:(lia)) as Dh.
  pose proof (Z.mod_pos_bound (33 * h) 100 ltac:(lia)) as Bh.
  generalize dependent (w / 2). generalize dependent (w mod 2).
  generalize dependent (33 * h / 100). generalize dependent ((33 * h) mod 100).
  intros rh qh Dh Bh rw qw Dw Bw.
  unfold Qle, Qlt. simpl. repeat split; lia.
Qed.

Lemma anchor_point_truncates_witness :
  get_cat_anchor_point Example.cat = anchor_point_int 1760 905 150 150
  /\ relative_position Example.cat (1600, 954) = (-235, 0).
Proof.
  destruct (anchor_point_truncates Example.cat 1760 905 150 150 1600 954 eq_refl)
    as (Ha & Hr & _); [lia | lia |].
  split; [exact Ha | exact Hr].
Defined.

(** ** The invariant of [current_pose] *)

Lemma set_pose_absent (now : Z) (p : string) (self : TaskbarCatOverlay) :
  ~ In p (PyDict.keys (pose_images self)) -> set_pose now p self = self.
Proof.
  intros Hno. unfold set_pose.
  destruct (pose_eqb p (current_pose self)); [reflexivity|].
  destruct (PyDict.get p (pose_images self)) as [px|] eqn:Hget; [|reflexivity].
  exfalso. apply Hno. now apply get_Some_In in Hget.
Qed.

Lemma set_pose_images (now : Z) (p : string) (self : TaskbarCatOverlay) :
  pose_images (set_pose now p self) = pose_images self.
Proof.
  unfold set_pose.
  destruct (pose_eqb p (current_pose self)); [reflexivity|].
  destruct (PyDict.get p (pose_images self)); reflexivity.
Qed.

Lemma set_pose_ok (now : Z) (p : string) (self : TaskbarCatOverlay) :
  pose_ok self -> pose_ok (set_pose now p self).
Proof.
  intros Hok. unfold set_pose.
  destruct (pose_eqb p (current_pose self)); [exact Hok|].
  destruct (PyDict.get p (pose_images self)) as [px|] eqn:Hget; [|exact Hok].
  unfold pose_ok. simpl. now apply get_Some_In in Hget.
Qed.

Lemma set_pose_keeps_some (now : Z) (p : string) (self : TaskbarCatOverlay) :
  current_pose self <> None -> current_pose (set_pose now p self) <> None.
Proof.
  intros Hs. unfold set_pose.
  destruct (pose_eqb p (current_pose self)); [exact Hs|].
  destruct (PyDict.get p (pose_images self)); [discriminate | exact Hs].
Qed.

Lemma update_orientation_cases (mouse : Z * Z) (current_time now : Z)
    (self : TaskbarCatOverlay) :
  update_orientation mouse current_time now self = self
  \/ exists p, update_orientation mouse current_time now self = set_pose now p self.
Proof.
  unfold update_orientation.
  destruct (target_pose self mouse) as [p|]; [|now left].
  destruct (negb (pose_eqb p (current_pose self))); [|now left].
  destruct (current_time - last_change_time self >=? POSE_CHANGE_COOLDOWN_MS);
    [right; now exists p | now left].
Qed.

(** Re-scaling assigns to keys that are present, so the keys stay as they
    are, in the same order. *)
Lemma rescale_keys (d : Desktop) (size : Z) (names : list string)
    (images : PyDict.t QPixmap) :
  (forall k, In k names -> In k (PyDict.keys images)) ->
  PyDict.keys (fold_left (rescale_image d size) names images) = PyDict.keys images.
Proof.
  revert images. induction names as [|n names IH]; intros images Hin; [reflexivity|].
  simpl fold_left.
  assert (Hn : PyDict.keys (rescale_image d size images n) = PyDict.keys images).
  { unfold rescale_image. destruct (path_exists d (n ++ ".png")); [|reflexivity].
    apply keys_set_present. apply Hin. now left. }
  rewrite IH; [exact Hn|].
  intros k Hk. rewrite Hn. apply Hin. now right.
Qed.

Lemma update_cat_position_keys (d : Desktop) (self : TaskbarCatOverlay) :
  PyDict.keys (pose_images (update_cat_position d self)) = PyDict.keys (pose_images self)
  /\ current_pose (update_cat_position d self) = current_pose self.
Proof.
  unfold update_cat_position. simpl. split; [|reflexivity].
  apply rescale_keys. auto.
Qed.

(** Loading only adds keys. *)
Lemma load_keys (size : Z) (files : list string) (images : PyDict.t QPixmap) (k : string) :
  In k (PyDict.keys images) ->
  In k (PyDict.keys (fold_left (load_image size) files images)).
Proof.
  revert images. induction files as [|f files IH]; intros images Hin; [exact Hin|].
  simpl fold_left. apply IH. unfold load_image.
  destruct (PyStr.endswith f ".png" && negb (PyStr.startswith f "cat_")); [|exact Hin].
  now apply keys_set_In.
Qed.

Lemma load_images_ok (images_dir : option (list string)) (now : Z)
    (self : TaskbarCatOverlay) :
  pose_ok self -> pose_ok (load_images images_dir now self).
Proof.
  intros Hok. unfold load_images.
  match goal with
  | |- context [mkOverlay ?c ?t ?i ?s ?y ?x ?l] =>
      assert (Hmid : pose_ok (mkOverlay c t i s y x l))
  end.
  { unfold pose_ok in *. simpl. destruct (current_pose self) as [p|]; [|exact I].
    destruct images_dir as [files|]; [now apply load_keys | exact Hok]. }
  destruct (PyDict.contains "forward" _); [now apply set_pose_ok|].
  destruct (PyDict.len _ >? 0); [|exact Hmid].
  destruct (PyDict.keys _); [exact Hmid | now apply set_pose_ok].
Qed.

Lemma load_images_keeps_some (images_dir : option (list string)) (now : Z)
    (self : TaskbarCatOverlay) :
  current_pose self <> None -> current_pose (load_images images_dir now self) <> None.
Proof.
  intros Hs. unfold load_images.
  destruct (PyDict.contains "forward" _); [now apply set_pose_keeps_some|].
  destruct (PyDict.len _ >? 0); [|exact Hs].
  destruct (PyDict.keys _); [exact Hs | now apply set_pose_keeps_some].
Qed.

Lemma update_cat_position_ok (d : Desktop) (self : TaskbarCatOverlay) :
  pose_ok self -> pose_ok (update_cat_position d self).
Proof.
  unfold pose_ok. destruct (update_cat_position_keys d self) as [-> ->]. auto.
Qed.

Lemma step_ok (e : event) (self : TaskbarCatOverlay) :
  pose_ok self -> pose_ok (step e self).
Proof.
  intros Hok. destruct e; simpl.
  - destruct (update_orientation_cases mouse current_time now self) as [-> | [p ->]];
      [exact Hok | now apply set_pose_ok].
  - apply update_cat_position_ok. exact Hok.
  - apply update_cat_position_ok. exact Hok.
  - apply update_cat_position_ok. exact Hok.
  - apply update_cat_position_ok. exact Hok.
Qed.

Lemma step_keeps_some (e : event) (self : TaskbarCatOverlay) :
  current_pose self <> None -> current_pose (step e self) <> None.
Proof.
  intros Hs. destruct e; cbn [step].
  - destruct (update_orientation_cases mouse current_time now self) as [-> | [p ->]];
      [exact Hs | now apply set_pose_keeps_some].
  - unfold update_size. now rewrite (proj2 (update_cat_position_keys _ _)).
  - unfold update_y_offset. now rewrite (proj2 (update_cat_position_keys _ _)).
  - unfold update_x_offset. now rewrite (proj2 (update_cat_position_keys _ _)).
  - unfold on_cancel. now rewrite (proj2 (update_cat_position_keys _ _)).
Qed.

Lemma run_keeps_some (es : list event) (self : TaskbarCatOverlay) :
  current_pose self <> None -> current_pose (run es self) <> None.
Proof.
  unfold run. revert self. induction es as [|e es IH]; intros self Hs; [exact Hs|].
  simpl. apply IH. now apply step_keeps_some.
Qed.

Lemma reachable_ok (self : TaskbarCatOverlay) : reachable self -> pose_ok self.
Proof.
  induction 1 as [size y_off x_off d images_dir now | e self _ IH].
  - unfold init. apply load_images_ok. exact I.
  - now apply step_ok.
Qed.

(** C10.  In every state the program reaches, [current_pose] is none or a
    key of [pose_images]; every operation keeps that: [set_pose] (which
    assigns only a key of the library and otherwise changes nothing), the
    initial selection of [load_images], the tick, and the re-scaling of
    [update_cat_position] with the dialog callbacks that run it (the keys
    of the library and [current_pose] are unchanged by it); and a
    [current_pose] that is not none stays so through every operation and
    every run of events. *)
Theorem current_pose_invariant :
  (forall self, reachable self -> pose_ok self)
  /\ (forall e self, pose_ok self -> pose_ok (step e self))
  /\ (forall now p self, pose_ok self -> pose_ok (set_pose now p self))
  /\ (forall now p self,
        ~ In p (PyDict.keys (pose_images self)) -> set_pose now p self = self)
  /\ (forall now p self,
        pose_images (set_pose now p self) = pose_images self)
  /\ (forall images_dir now self,
        pose_ok self -> pose_ok (load_images images_dir now self))
  /\ (forall mouse current_time now self,
        pose_ok self -> pose_ok (update_orientation mouse current_time now self))
  /\ (forall d self,
        PyDict.keys (pose_images (update_cat_position d self))
          = PyDict.keys (pose_images self)
        /\ current_pose (update_cat_position d self) = current_pose self)
  /\ (forall e self, current_pose self <> None -> current_pose (step e self) <> None)
  /\ (forall images_dir now self,
        current_pose self <> None ->
        current_pose (load_images images_dir now self) <> None)
  /\ (forall es self, current_pose self <> None -> current_pose (run es self) <> None).
Proof.
  split; [exact reachable_ok|].
  split; [exact step_ok|].
  split; [exact set_pose_ok|].
  split; [exact set_pose_absent|].
  split; [exact set_pose_images|].
  split; [exact load_images_ok|].
  split; [intros mouse current_time now self; exact (step_ok (Timeout mouse current_time now) self)|].
  split; [exact update_cat_position_keys|].
  split; [exact step_keeps_some|].
  split; [exact load_images_keeps_some | exact run_keeps_some].
Qed.

(** ** Saved settings *)

Lemma get_set {V : Type} (k k' : string) (v : V) (d : PyDict.t V) :
  PyDict.get k (PyDict.set k' v d) = if k == k' then Some v else PyDict.get k d.
Proof.
  induction d as [|[k0 v0] d IH]; simpl.
  - destruct (String.eqb_spec k k'); reflexivity.
  - destruct (String.eqb_spec k' k0) as [->|Hne]; simpl.
    + destruct (String.eqb_spec k k0); reflexivity.
    + destruct (String.eqb_spec k k0) as [->|Hne0].
      * destruct (String.eqb_spec k0 k'); [congruence | reflexivity].
      * exact IH.
Qed.

Lemma number_of_bounds (lo : Z) (v : json) (b : bool) :
  Py.int_le lo v = Some b -> is_number v.
Proof. destruct v; simpl; intros H; try exact I; discriminate. Qed.

(** What one merge statement can do. *)
Lemma merge_setting_cases (key : string) (lo hi : Z) (settings : json)
    (result result' : PyDict.t json) :
  merge_setting key lo hi settings result = Some result' ->
  result' = result
  \/ exists v, Py.getitem settings key = Some v
       /\ Py.int_le lo v = Some true /\ Py.le_int v hi = Some true
       /\ result' = PyDict.set key v result.
Proof.
  unfold merge_setting.
  destruct (Py.contains key settings) as [[|]|]; try discriminate;
    [|intros [= <-]; now left].
  destruct (Py.getitem settings key) as [v|] eqn:Hv; [|discriminate].
  destruct (Py.int_le lo v) as [[|]|] eqn:Hlo; try discriminate;
    [|intros [= <-]; now left].
  destruct (Py.le_int v hi) as [[|]|] eqn:Hhi; try discriminate;
    [|intros [= <-]; now left].
  intros [= <-]. right. exists v. auto.
Qed.

Lemma default_settings_shape : settings_shape default_settings.
Proof.
  unfold settings_shape, default_settings. split; [reflexivity|].
  split.
  - intros k v. simpl.
    repeat match goal with |- context [k == ?s] => destruct (k == s) end;
      intros [= <-] || discriminate; exact I.
  - simpl. split; [|split]; intros z [= <-]; lia.
Qed.

Lemma int_bounds (lo hi z : Z) :
  Py.int_le lo (JInt z) = Some true -> Py.le_int (JInt z) hi = Some true ->
  lo <= z <= hi.
Proof. simpl. intros [= H1] [= H2]. lia. Qed.

Lemma merge_setting_shape (key : string) (lo hi : Z) (settings : json)
    (r r' : PyDict.t json) :
  (key = "size" /\ lo = 50 /\ hi = 500)
  \/ (key = "y_offset" /\ lo = -200 /\ hi = 200)
  \/ (key = "x_offset" /\ lo = -500 /\ hi = 500) ->
  settings_shape r ->
  merge_setting key lo hi settings r = Some r' ->
  settings_shape r'.
Proof.
  intros Hkey Hr Hm.
  destruct (merge_setting_cases _ _ _ _ _ _ Hm) as [-> | (v & _ & Hlo & Hhi & ->)];
    [exact Hr|].
  destruct Hr as (Hk & Hn & Hs & Hy & Hx).
  assert (Hin : In key (PyDict.keys r)).
  { rewrite Hk. unfold setting_keys. simpl.
    destruct Hkey as [(-> & _)|[(-> & _)|(-> & _)]]; auto. }
  split; [rewrite keys_set_present; assumption|].
  split.
  { intros k w. rewrite get_set. destruct (k == key).
    - intros [= <-]. exact (number_of_bounds _ _ _ Hlo).
    - apply Hn. }
  destruct Hkey as [(-> & -> & ->)|[(-> & -> & ->)|(-> & -> & ->)]];
    (split; [|split]); intros z; rewrite get_set; simpl;
    first [ intros [= ->]; exact (int_bounds _ _ _ Hlo Hhi) | auto ].
Qed.

(** X1.  Whatever the settings file is (missing, unreadable, any JSON
    value), [load_settings] returns a dictionary with exactly the keys size,
    y_offset and x_offset, each holding a number, and an integer size is
    within 50..500, an integer y_offset within -200..200 and an integer
    x_offset within -500..500. *)
Theorem load_settings_valid :
  forall file : settings_file,
  let r := load_settings file in
  PyDict.keys r = ["size"; "y_offset"; "x_offset"]
  /\ (forall k v, PyDict.get k r = Some v -> is_number v)
  /\ (forall z, PyDict.get "size" r = Some (JInt z) -> 50 <= z <= 500)
  /\ (forall z, PyDict.get "y_offset" r = Some (JInt z) -> -200 <= z <= 200)
  /\ (forall z, PyDict.get "x_offset" r = Some (JInt z) -> -500 <= z <= 500).
Proof.
  intros file r. subst r. change (settings_shape (load_settings file)).
  unfold load_settings.
  destruct file as [[settings|]|]; try exact default_settings_shape.
  destruct (merge_setting "size" 50 500 settings default_settings) as [r1|] eqn:H1;
    [|exact default_settings_shape].
  destruct (merge_setting "y_offset" (-200) 200 settings r1) as [r2|] eqn:H2;
    [|exact default_settings_shape].
  destruct (merge_setting "x_offset" (-500) 500 settings r2) as [r3|] eqn:H3;
    [|exact default_settings_shape].
  eapply merge_setting_shape; [| |exact H3]; [right; right; auto|].
  eapply merge_setting_shape; [| |exact H2]; [right; left; auto|].
  eapply merge_setting_shape; [| |exact H1]; [left; auto|].
  exact default_settings_shape.
Qed.

Lemma merge_setting_int (key : string) (lo hi : Z) (members r : PyDict.t json) :
  (forall v, PyDict.get key members = Some v -> exists z, v = JInt z) ->
  merge_setting key lo hi (JObject members) r
  = Some (match PyDict.get key members with
          | Some (JInt z) =>
              if (lo <=? z) && (z <=? hi) then PyDict.set key (JInt z) r else r
          | _ => r
          end).
Proof.
  intros Hint. unfold merge_setting. simpl. unfold PyDict.contains.
  destruct (PyDict.get key members) as [v|]; [|reflexivity].
  destruct (Hint v eq_refl) as [z ->]. simpl.
  destruct (lo <=? z); [|reflexivity]. destruct (z <=? hi); reflexivity.
Qed.

Lemma load_settings_merges_int (members : PyDict.t json) :
  (forall k v, In k setting_keys -> PyDict.get k members = Some v -> exists z, v = JInt z) ->
  load_settings (Some (Some (JObject members)))
  = [("size", JInt (int_setting members "size" 50 500 150));
     ("y_offset", JInt (int_setting members "y_offset" (-200) 200 15));
     ("x_offset", JInt (int_setting members "x_offset" (-500) 500 (-10)))].
Proof.
  intros Hint. unfold load_settings, int_setting, setting_keys in *.
  rewrite !merge_setting_int by (intros v; apply Hint; simpl; auto).
  destruct (PyDict.get "size" members) as [v|] eqn:Hs;
    [destruct (Hint "size" v) as [z ->]; simpl; auto|];
  (destruct (PyDict.get "y_offset" members) as [v'|] eqn:Hy;
    [destruct (Hint "y_offset" v') as [z' ->]; simpl; auto|]);
  (destruct (PyDict.get "x_offset" members) as [v''|] eqn:Hx;
    [destruct (Hint "x_offset" v'') as [z'' ->]; simpl; auto|]);
  repeat match goal with
         | |- context [(?a <=? ?b) && (?c <=? ?d)] =>
             destruct ((a <=? b) && (c <=? d))
         end; reflexivity.
Qed.

(** X2.  When the file holds an object whose size, y_offset and x_offset
    are integers where present, [load_settings] returns, key by key, the
    integer of the file if it is within the range of the key, and the
    default (150, 15, -10) if the key is absent or out of range: one bad
    value does not touch the other two. *)
Theorem load_settings_merges :
  forall members : PyDict.t json,
  (forall k v, In k setting_keys -> PyDict.get k members = Some v -> exists z, v = JInt z) ->
  load_settings (Some (Some (JObject members)))
  = [("size", JInt (int_setting members "size" 50 500 150));
     ("y_offset", JInt (int_setting members "y_offset" (-200) 200 15));
     ("x_offset", JInt (int_setting members "x_offset" (-500) 500 (-10)))].
Proof. exact load_settings_merges_int. Qed.

Lemma load_settings_merges_witness :
  load_settings (Some (Some (JObject [("x_offset", JInt 40); ("size", JInt 9000)])))
  = [("size", JInt 150); ("y_offset", JInt 15); ("x_offset", JInt 40)].
Proof.
  apply (load_settings_merges [("x_offset", JInt 40); ("size", JInt 9000)]).
  intros k v _. simpl.
  destruct (k == "x_offset"); [intros [= <-]; now exists 40|].
  destruct (k == "size"); [intros [= <-]; now exists 9000 | discriminate].
Defined.

Lemma merge_setting_raises (key : string) (lo hi : Z) (members r : PyDict.t json)
    (v : json) :
  PyDict.get key members = Some v -> ~ is_number v ->
  merge_setting key lo hi (JObject members) r = None.
Proof.
  intros Hget Hnum. unfold merge_setting. simpl. unfold PyDict.contains.
  rewrite Hget. destruct v; simpl in *; try reflexivity; exfalso; apply Hnum; exact I.
Qed.

Lemma merge_setting_not_object (key : string) (lo hi : Z) (v : json) (r : PyDict.t json) :
  (forall members, v <> JObject members) ->
  merge_setting key lo hi v r = None \/ merge_setting key lo hi v r = Some r.
Proof.
  intros Hno. unfold merge_setting.
  destruct v; simpl; auto.
  - destruct (String.index 0 key s); auto.
  - destruct (existsb _ items); auto.
  - exfalso. exact (Hno members eq_refl).
Qed.

(** X3.  [load_settings] returns the defaults, all three, as soon as one of
    size, y_offset, x_offset is present in the file's object with a value
    that is not a number (a string, null, a list, an object): the exception
    is caught and the valid values of the other keys are dropped too.  It
    also returns the defaults when the file is missing, cannot be read or
    parsed, or holds a value that is not an object. *)
Theorem load_settings_falls_back :
  (forall (members : PyDict.t json) (k : string) (v : json),
     In k setting_keys -> PyDict.get k members = Some v -> ~ is_number v ->
     load_settings (Some (Some (JObject members))) = default_settings)
  /\ (forall v : json,
     (forall members, v <> JObject members) ->
     load_settings (Some (Some v)) = default_settings)
  /\ load_settings None = default_settings
  /\ load_settings (Some None) = default_settings.
Proof.
  split; [|split; [|split; reflexivity]].
  - intros members k v Hk Hget Hnum. unfold load_settings.
    destruct (merge_setting "size" 50 500 (JObject members) default_settings)
      as [r1|] eqn:H1; [|reflexivity].
    destruct (merge_setting "y_offset" (-200) 200 (JObject members) r1)
      as [r2|] eqn:H2; [|reflexivity].
    destruct (merge_setting "x_offset" (-500) 500 (JObject members) r2)
      as [r3|] eqn:H3; [|reflexivity].
    exfalso. unfold setting_keys in Hk. simpl in Hk.
    destruct Hk as [<-|[<-|[<-|[]]]].
    + rewrite (merge_setting_raises _ _ _ _ _ v Hget Hnum) in H1. discriminate.
    + rewrite (merge_setting_raises _ _ _ _ _ v Hget Hnum) in H2. discriminate.
    + rewrite (merge_setting_raises _ _ _ _ _ v Hget Hnum) in H3. discriminate.
  - intros v Hno. unfold load_settings.
    destruct (merge_setting_not_object "size" 50 500 v default_settings Hno) as [-> | ->];
      [reflexivity|].
    destruct (merge_setting_not_object "y_offset" (-200) 200 v default_settings Hno)
      as [-> | ->]; [reflexivity|].
    destruct (merge_setting_not_object "x_offset" (-500) 500 v default_settings Hno)
      as [-> | ->]; reflexivity.
Qed.


Lemma existsb_eqb_In (k : string) (l : list string) :
  existsb (String.eqb k) l = true <-> In k l.
Proof.
  rewrite existsb_exists. split.
  - intros (x & Hx & He). apply String.eqb_eq in He. now subst.
  - intros H. exists k. split; [exact H | apply String.eqb_refl].
Qed.

Lemma save_then_load (argv : list string) (size y_off x_off : Z) (file : settings_file) :
  50 <= size <= 500 -> -200 <= y_off <= 200 -> -500 <= x_off <= 500 ->
  ~ In "-testing" argv -> ~ In "--testing" argv ->
  load_settings (save_settings argv Written size y_off x_off file)
  = [("size", JInt size); ("y_offset", JInt y_off); ("x_offset", JInt x_off)].
Proof.
  intros Hs Hy Hx N1 N2. unfold save_settings.
  rewrite <- existsb_eqb_In in N1, N2.
  apply not_true_is_false in N1, N2. rewrite N1, N2. simpl orb. cbv iota.
  rewrite load_settings_merges_int.
  - unfold int_setting. simpl.
    replace ((50 <=? size) && (size <=? 500)) with true
      by (symmetry; apply andb_true_intro; split; apply Z.leb_le; lia).
    replace ((-200 <=? y_off) && (y_off <=? 200)) with true
      by (symmetry; apply andb_true_intro; split; apply Z.leb_le; lia).
    replace ((-500 <=? x_off) && (x_off <=? 500)) with true
      by (symmetry; apply andb_true_intro; split; apply Z.leb_le; lia).
    reflexivity.
  - intros k v _. simpl.
    repeat match goal with
           | |- context [k == ?s] => destruct (k == s)
           end; intros [= <-] || discriminate; eauto.
Qed.

(** X4.  Settings within the ranges of the dialog survive a save and a
    load: without a testing flag in [sys.argv] and when the write succeeds,
    [load_settings] on the file that [save_settings] wrote gives back the
    size and the two offsets; with [-testing] or [--testing] the file is
    left as it was; and when the write raises nothing is propagated. *)
Theorem save_load_round_trip :
  forall (argv : list string) (disk : write_outcome) (size y_off x_off : Z)
         (file : settings_file),
  50 <= size <= 500 -> -200 <= y_off <= 200 -> -500 <= x_off <= 500 ->
  let file' := save_settings argv disk size y_off x_off file in
  (In "-testing" argv \/ In "--testing" argv -> file' = file)
  /\ (~ In "-testing" argv -> ~ In "--testing" argv -> disk = Written ->
      load_settings file'
      = [("size", JInt size); ("y_offset", JInt y_off); ("x_offset", JInt x_off)])
  /\ (~ In "-testing" argv -> ~ In "--testing" argv ->
      forall remains, disk = WriteFailed remains -> file' = remains).
Proof.
  intros argv disk size y x file Hs Hy Hx file'. subst file'.
  split; [|split].
  - unfold save_settings. rewrite <- !existsb_eqb_In.
    intros [-> | ->]; [reflexivity | now rewrite orb_true_r].
  - intros N1 N2 ->. now apply save_then_load.
  - intros N1 N2 remains ->. unfold save_settings.
    rewrite <- existsb_eqb_In in N1, N2.
    apply not_true_is_false in N1, N2. now rewrite N1, N2.
Qed.

Lemma save_load_round_trip_witness :
  load_settings (save_settings ["base.py"] Written 200 (-5) 30 None)
  = [("size", JInt 200); ("y_offset", JInt (-5)); ("x_offset", JInt 30)].
Proof.
  destruct (save_load_round_trip ["base.py"] Written 200 (-5) 30 None) as (_ & H & _);
    [lia | lia | lia |].
  apply H; [simpl; intuition discriminate | simpl; intuition discriminate | reflexivity].
Defined.

(** ** File names and the image loader *)

Lemma substring_all (s : string) : String.substring 0 (String.length s) s = s.
Proof. induction s as [|c s IH]; simpl; [reflexivity | now rewrite IH]. Qed.

Lemma substring_split (n : nat) (s : string) :
  (n <= String.length s)%nat ->
  String.substring 0 n s ++ String.substring n (String.length s - n) s = s.
Proof.
  revert s. induction n as [|n IH]; intros s Hn.
  - rewrite Nat.sub_0_r, substring_all. destruct s; reflexivity.
  - destruct s as [|c s]; simpl in *; [lia|].
    rewrite IH by lia. reflexivity.
Qed.

(** A file name that ends in [.png] is its stem followed by [.png]. *)
Lemma stem_png (filename : string) :
  PyStr.endswith filename ".png" = true ->
  PyStr.drop_last 4 filename ++ ".png" = filename.
Proof.
  unfold PyStr.endswith, PyStr.drop_last. cbn [String.length].
  intros H. apply andb_prop in H. destruct H as [Hlen Hsuf].
  apply Nat.leb_le in Hlen. apply String.eqb_eq in Hsuf.
  pose proof (substring_split (String.length filename - 4) filename ltac:(lia)) as H.
  replace (String.length filename - (String.length filename - 4))%nat with 4%nat in H
    by lia.
  rewrite Hsuf in H. exact H.
Qed.

Lemma is_pose_file_png (filename : string) :
  is_pose_file filename = true -> PyStr.endswith filename ".png" = true.
Proof. unfold is_pose_file. intros H. now apply andb_prop in H. Qed.

Lemma keys_set_iff {V : Type} (k k0 : string) (v : V) (d : PyDict.t V) :
  In k0 (PyDict.keys (PyDict.set k v d)) <-> k0 = k \/ In k0 (PyDict.keys d).
Proof.
  induction d as [|[k' v'] d IH]; simpl.
  - intuition.
  - destruct (String.eqb_spec k k') as [->|Hne]; simpl.
    + intuition.
    + rewrite IH. intuition.
Qed.

Lemma load_image_keys (size : Z) (files : list string) (images : PyDict.t QPixmap)
    (k : string) :
  In k (PyDict.keys (fold_left (load_image size) files images))
  <-> In k (PyDict.keys images)
      \/ exists f, In f files /\ is_pose_file f = true /\ k = PyStr.drop_last 4 f.
Proof.
  revert images. induction files as [|f files IH]; intros images; simpl.
  - split; [auto | intros [H|(f & [] & _)]; exact H].
  - rewrite IH. unfold load_image. fold (is_pose_file f).
    destruct (is_pose_file f) eqn:Hf.
    + rewrite keys_set_iff. split.
      * intros [[->|H]|(g & Hg & Hq & ->)]; eauto 6.
      * intros [H|(g & [<-|Hg] & Hq & ->)]; eauto 6.
    + split.
      * intros [H|(g & Hg & Hq & ->)]; eauto 6.
      * intros [H|(g & [<-|Hg] & Hq & ->)]; [auto | congruence | eauto 6].
Qed.

Lemma load_image_files_ok (size : Z) (files : list string) (images : PyDict.t QPixmap) :
  (forall k px, PyDict.get k images = Some px -> image_file px = k ++ ".png") ->
  forall k px,
  PyDict.get k (fold_left (load_image size) files images) = Some px ->
  image_file px = k ++ ".png".
Proof.
  revert images. induction files as [|f files IH]; intros images Hok; [exact Hok|].
  simpl. apply IH. intros k px. unfold load_image. fold (is_pose_file f).
  destruct (is_pose_file f) eqn:Hf; [|apply Hok].
  rewrite get_set. destruct (String.eqb_spec k (PyStr.drop_last 4 f)) as [->|Hne];
    [|apply Hok].
  intros [= <-]. simpl. symmetry. apply stem_png. now apply is_pose_file_png.
Qed.

(** The first key of the loaded library. *)
Lemma load_image_first (size : Z) (files : list string) (images : PyDict.t QPixmap) :
  hd_error (PyDict.keys (fold_left (load_image size) files images))
  = match images with
    | [] => option_map (PyStr.drop_last 4) (find is_pose_file files)
    | (k, _) :: _ => Some k
    end.
Proof.
  revert images. induction files as [|f files IH]; intros images; simpl.
  - destruct images as [|[k v] d]; reflexivity.
  - rewrite IH. unfold load_image. fold (is_pose_file f).
    destruct (is_pose_file f) eqn:Hf.
    + destruct images as [|[k v] d]; simpl; [reflexivity|].
      destruct (PyStr.drop_last 4 f =? k)%string; reflexivity.
    + destruct images as [|[k v] d]; reflexivity.
Qed.

Lemma loaded_pixmap (size : Z) (files : list string) (k : string) (px : QPixmap) :
  PyDict.get k (fold_left (load_image size) files []) = Some px ->
  px = mkPixmap (k ++ ".png") size.
Proof.
  intros Hget.
  assert (Hfile : image_file px = k ++ ".png").
  { revert Hget. apply load_image_files_ok. discriminate. }
  assert (Hsize : forall (l : list string) (im : PyDict.t QPixmap),
            (forall k px, PyDict.get k im = Some px -> scaled_to px = size) ->
            forall k px, PyDict.get k (fold_left (load_image size) l im) = Some px ->
            scaled_to px = size).
  { induction l as [|f l IH]; intros im Him; [exact Him|].
    simpl. apply IH. intros k' px'. unfold load_image.
    destruct (_ && _); [|apply Him].
    rewrite get_set. destruct (k' == _); [intros [= <-]; reflexivity | apply Him]. }
  destruct px as [file sz]. simpl in Hfile. subst file. f_equal.
  apply (Hsize files [] ltac:(discriminate) k _ Hget).
Qed.

Lemma init_images (size y_off x_off : Z) (d : Desktop)
    (images_dir : option (list string)) (now : Z) :
  pose_images (init size y_off x_off d images_dir now) = loaded size images_dir.
Proof.
  unfold init, load_images, loaded. simpl.
  destruct (PyDict.contains "forward" _); [rewrite set_pose_images|]; simpl.
  - destruct images_dir; reflexivity.
  - destruct (PyDict.len _ >? 0); [|destruct images_dir; reflexivity].
    destruct (PyDict.keys _); [|rewrite set_pose_images]; simpl;
      destruct images_dir; reflexivity.
Qed.

(** X5.  The library that [__init__] loads has exactly one pose per file of
    the images directory whose name ends in [.png] and does not start with
    [cat_], named by the file name without its last four characters, and
    each image was read from the file named pose + [.png] and scaled to the
    size of the settings; without an images directory the library is
    empty. *)
Theorem loaded_library :
  forall (size y_off x_off : Z) (d : Desktop) (images_dir : option (list string))
         (now : Z),
  let self := init size y_off x_off d images_dir now in
  (forall k, In k (PyDict.keys (pose_images self))
     <-> exists files f, images_dir = Some files /\ In f files
           /\ is_pose_file f = true /\ k = PyStr.drop_last 4 f)
  /\ (forall k px, PyDict.get k (pose_images self) = Some px ->
        px = mkPixmap (k ++ ".png") size)
  /\ (images_dir = None -> pose_images self = []).
Proof.
  intros size y_off x_off d images_dir now self. subst self.
  rewrite init_images. unfold loaded. split; [|split].
  - intros k. destruct images_dir as [files|].
    + rewrite load_image_keys. simpl. split.
      * intros [[]|(f & Hf & Hq & ->)]. exists files, f. auto.
      * intros (files' & f & [= <-] & Hf & Hq & ->). right. eauto.
    + simpl. split; [intros [] | intros (files & f & [=] & _)].
  - intros k px Hget. destruct images_dir as [files|]; [|discriminate].
    now apply loaded_pixmap in Hget.
  - intros ->. reflexivity.
Qed.

Lemma forward_png_loaded (size : Z) (files : list string) :
  PyDict.contains "forward" (fold_left (load_image size) files [])
  = existsb (String.eqb "forward.png") files.
Proof.
  apply eq_true_iff_eq. rewrite contains_In, load_image_keys, existsb_eqb_In.
  split.
  - intros [[]|(f & Hf & Hq & Hk)].
    apply is_pose_file_png, stem_png in Hq. rewrite <- Hk in Hq.
    simpl in Hq. now subst f.
  - intros H. right. exists "forward.png". auto.
Qed.

(** X6.  The pose shown after [__init__]: forward when [forward.png] is in
    the images directory; otherwise the pose of the first file of the
    listing that the loader accepts; none when there is no such file or no
    directory.  When there is a pose, its image is on the label and
    [last_change_time] is the clock at start-up; when there is none the
    label shows nothing. *)
Theorem initial_pose :
  forall (size y_off x_off : Z) (d : Desktop) (images_dir : option (list string))
         (now : Z),
  let self := init size y_off x_off d images_dir now in
  let files := match images_dir with Some files => files | None => [] end in
  current_pose self
    = (if existsb (String.eqb "forward.png") files then Some "forward"
       else option_map (PyStr.drop_last 4) (find is_pose_file files))
  /\ (forall p, current_pose self = Some p ->
        last_change_time self = now
        /\ pixmap (label self) = Some (mkPixmap (p ++ ".png") size))
  /\ (current_pose self = None ->
        pixmap (label self) = None /\ pose_images self = []).
Proof.
  intros size y_off x_off d images_dir now self files.
  assert (Hfwd : PyDict.contains "forward" (loaded size images_dir)
                 = existsb (String.eqb "forward.png") files).
  { subst files. destruct images_dir as [fs|]; [apply forward_png_loaded | reflexivity]. }
  assert (Hhd : hd_error (PyDict.keys (loaded size images_dir))
                = option_map (PyStr.drop_last 4) (find is_pose_file files)).
  { subst files. destruct images_dir as [fs|]; [apply load_image_first | reflexivity]. }
  assert (Hpx : forall k px, PyDict.get k (loaded size images_dir) = Some px ->
                             px = mkPixmap (k ++ ".png") size).
  { intros k px. destruct images_dir as [fs|]; [apply loaded_pixmap | discriminate]. }
  subst self. unfold init, load_images. cbn [pose_images cat_size current_pose].
  change (match images_dir with
          | Some files0 => fold_left (load_image size) files0 PyDict.empty
          | None => PyDict.empty
          end) with (loaded size images_dir).
  rewrite Hfwd.
  destruct (existsb (String.eqb "forward.png") files) eqn:Hf.
  - (* forward *)
    pose proof Hfwd as Hc. try rewrite Hf in Hc.
    unfold PyDict.contains in Hc.
    destruct (PyDict.get "forward" (loaded size images_dir)) as [px|] eqn:Hg;
      [|discriminate].
    unfold set_pose. simpl. rewrite Hg. simpl.
    split; [reflexivity|]. split; [|discriminate].
    intros p [= <-]. split; [reflexivity|]. now rewrite (Hpx _ _ Hg).
  - (* the first key, if any *)
    rewrite <- Hhd.
    destruct (loaded size images_dir) as [|[k px] rest] eqn:Hl.
    + simpl. split; [reflexivity|]. split; [discriminate | auto].
    + replace (PyDict.len ((k, px) :: rest) >? 0) with true
        by (symmetry; apply len_pos_iff; discriminate).
      cbn [PyDict.keys map fst hd_error].
      unfold set_pose. simpl. rewrite String.eqb_refl. simpl.
      split; [reflexivity|]. split; [|discriminate].
      intros p [= <-]. split; [reflexivity|].
      rewrite (Hpx k px); [reflexivity|]. simpl. now rewrite String.eqb_refl.
Qed.

(** ** Re-scaling and the invariants of the overlay *)

Lemma rescale_get (d : Desktop) (size : Z) (names : list string)
    (images : PyDict.t QPixmap) (k : string) :
  PyDict.get k (fold_left (rescale_image d size) names images)
  = if existsb (String.eqb k) names && path_exists d (k ++ ".png")
    then Some (mkPixmap (k ++ ".png") size)
    else PyDict.get k images.
Proof.
  revert images. induction names as [|n names IH]; intros images; [reflexivity|].
  simpl fold_left. rewrite IH. simpl existsb.
  destruct (existsb (String.eqb k) names && path_exists d (k ++ ".png")) eqn:Hin.
  - now rewrite orb_comm, andb_orb_distrib_l, Hin.
  - rewrite andb_orb_distrib_l, Hin, orb_false_r.
    unfold rescale_image. destruct (String.eqb_spec k n) as [->|Hne]; simpl.
    + destruct (path_exists d (n ++ ".png")); [|reflexivity].
      rewrite get_set, String.eqb_refl. reflexivity.
    + destruct (path_exists d (n ++ ".png")); [|reflexivity].
      rewrite get_set. now apply String.eqb_neq in Hne; rewrite Hne.
Qed.

Lemma update_cat_position_get (d : Desktop) (self : TaskbarCatOverlay) (k : string) :
  PyDict.get k (pose_images (update_cat_position d self))
  = if PyDict.contains k (pose_images self) && path_exists d (k ++ ".png")
    then Some (mkPixmap (k ++ ".png") (cat_size self))
    else PyDict.get k (pose_images self).
Proof.
  unfold update_cat_position. cbn [pose_images]. rewrite rescale_get.
  replace (existsb (String.eqb k) (PyDict.keys (pose_images self)))
    with (PyDict.contains k (pose_images self)); [reflexivity|].
  apply eq_true_iff_eq. now rewrite contains_In, existsb_eqb_In.
Qed.

(** X7.  After [update_cat_position] (which every control of the dialog
    runs), a pose whose file [pose.png] exists has the image of that file
    scaled to the current [cat_size], and a pose whose file is missing
    keeps the image it had, at its old scale; no pose is added or lost. *)
Theorem rescaled_library :
  forall (d : Desktop) (self : TaskbarCatOverlay) (k : string) (px : QPixmap),
  PyDict.get k (pose_images self) = Some px ->
  (path_exists d (k ++ ".png") = true ->
     PyDict.get k (pose_images (update_cat_position d self))
     = Some (mkPixmap (k ++ ".png") (cat_size self)))
  /\ (path_exists d (k ++ ".png") = false ->
     PyDict.get k (pose_images (update_cat_position d self)) = Some px)
  /\ PyDict.keys (pose_images (update_cat_position d self))
     = PyDict.keys (pose_images self).
Proof.
  intros d self k px Hget.
  assert (Hc : PyDict.contains k (pose_images self) = true)
    by (unfold PyDict.contains; now rewrite Hget).
  rewrite update_cat_position_get, Hc. simpl.
  split; [intros ->; reflexivity|]. split; [intros ->; exact Hget|].
  apply update_cat_position_keys.
Qed.

Lemma rescaled_library_witness :
  PyDict.get "left"
    (pose_images (update_size Example.desktop 200 Example.cat))
  = Some (mkPixmap "left.png" 200)
  /\ PyDict.get "left"
       (pose_images
          (update_size (mkDesktop 1920 1040 (fun _ => false)) 200 Example.cat))
     = Some (mkPixmap "left.png" 150).
Proof.
  split.
  - refine (proj1 (rescaled_library Example.desktop
      (mkOverlay (current_pose Example.cat) (last_change_time Example.cat)
         (pose_images Example.cat) 200 (y_offset Example.cat)
         (x_offset Example.cat) (label Example.cat))
      "left" (mkPixmap "left.png" 150) eq_refl) eq_refl).
  - refine (proj1 (proj2 (rescaled_library (mkDesktop 1920 1040 (fun _ => false))
      (mkOverlay (current_pose Example.cat) (last_change_time Example.cat)
         (pose_images Example.cat) 200 (y_offset Example.cat)
         (x_offset Example.cat) (label Example.cat))
      "left" (mkPixmap "left.png" 150) eq_refl)) eq_refl).
Defined.

(** Every event is a tick, or [update_cat_position] on the overlay with
    other settings. *)
Lemma step_cases (e : event) (self : TaskbarCatOverlay) :
  (exists mouse current_time now,
     step e self = update_orientation mouse current_time now self)
  \/ (exists d size y x,
     step e self
     = update_cat_position d
         (mkOverlay (current_pose self) (last_change_time self) (pose_images self)
                    size y x (label self))).
Proof.
  destruct e; simpl; [left; eauto | right ..];
    unfold update_size, update_y_offset, update_x_offset, on_cancel; eauto 8.
Qed.

Lemma update_orientation_frame (mouse : Z * Z) (current_time now : Z)
    (self : TaskbarCatOverlay) :
  let self' := update_orientation mouse current_time now self in
  pose_images self' = pose_images self
  /\ cat_size self' = cat_size self
  /\ y_offset self' = y_offset self
  /\ x_offset self' = x_offset self
  /\ geometry (label self') = geometry (label self).
Proof.
  destruct (update_orientation_cases mouse current_time now self) as [-> | [p ->]];
    [repeat split|].
  unfold set_pose. destruct (pose_eqb p (current_pose self)); [repeat split|].
  destruct (PyDict.get p (pose_images self)); repeat split.
Qed.

Lemma set_pose_display (now : Z) (p : string) (self : TaskbarCatOverlay) :
  display_ok self -> display_ok (set_pose now p self).
Proof.
  intros Hd. unfold set_pose.
  destruct (pose_eqb p (current_pose self)); [exact Hd|].
  destruct (PyDict.get p (pose_images self)) as [px|] eqn:Hg; [|exact Hd].
  unfold display_ok. simpl. intros _. now rewrite Hg.
Qed.

Lemma update_cat_position_display (d : Desktop) (self : TaskbarCatOverlay) :
  pose_ok self -> display_ok self -> display_ok (update_cat_position d self).
Proof.
  unfold pose_ok, display_ok. intros Hp Hd.
  pose proof (update_cat_position_keys d self) as [Hk _].
  unfold update_cat_position in *. cbn [current_pose pose_images label] in *.
  destruct (current_pose self) as [p|]; [|exact Hd].
  intros Hne. unfold PyStr.truthy.
  apply String.eqb_neq in Hne. rewrite Hne. simpl negb. cbv iota.
  rewrite <- Hk in Hp. apply contains_In in Hp. unfold PyDict.contains in Hp.
  destruct (PyDict.get p _) as [px|]; [reflexivity | discriminate].
Qed.

Lemma init_display (size y_off x_off : Z) (d : Desktop)
    (images_dir : option (list string)) (now : Z) :
  display_ok (init size y_off x_off d images_dir now).
Proof.
  unfold init, load_images. cbn [pose_images cat_size current_pose last_change_time
    y_offset x_offset label].
  match goal with
  | |- context [mkOverlay None 0 ?i ?s ?y ?x ?l] =>
      assert (Hmid : display_ok (mkOverlay None 0 i s y x l)) by reflexivity
  end.
  destruct (PyDict.contains "forward" _); [now apply set_pose_display|].
  destruct (PyDict.len _ >? 0); [|exact Hmid].
  destruct (PyDict.keys _); [exact Hmid | now apply set_pose_display].
Qed.

(** X8.  In every state the program reaches, the label shows the library's
    image of [current_pose], at its current scale, and shows nothing while
    there is no current pose.  The pose with the empty name (from a file
    named [.png]) is excepted: [update_cat_position] tests the truth
    of the name and does not refresh it. *)
Theorem displayed_image_invariant :
  forall self : TaskbarCatOverlay,
  reachable self ->
  match current_pose self with
  | None => pixmap (label self) = None
  | Some p => p <> "" -> pixmap (label self) = PyDict.get p (pose_images self)
  end.
Proof.
  intros self Hr. change (display_ok self).
  induction Hr as [size y_off x_off d images_dir now | e self Hr IH].
  - apply init_display.
  - pose proof (reachable_ok self Hr) as Hp.
    destruct (step_cases e self) as [(mouse & t & now & ->) | (d & sz & y & x & ->)].
    + destruct (update_orientation_cases mouse t now self) as [-> | [p ->]];
        [exact IH | now apply set_pose_display].
    + apply update_cat_position_display; assumption.
Qed.

Lemma displayed_image_invariant_witness :
  pixmap (label (step (SizeChanged Example.desktop 200)
                   (step (Timeout Example.pointer_left 1150 1151) Example.cat)))
  = PyDict.get "left"
      (pose_images (step (SizeChanged Example.desktop 200)
                      (step (Timeout Example.pointer_left 1150 1151) Example.cat))).
Proof.
  refine (displayed_image_invariant
            (step (SizeChanged Example.desktop 200)
               (step (Timeout Example.pointer_left 1150 1151) Example.cat))
            _ _).
  - apply reachable_step, reachable_step. apply reachable_init.
  - discriminate.
Defined.

(** X9.  In every state the program reaches, each image of the library was
    read from the file named after its pose, [pose.png]: the name the
    loader strips is the name the re-scaling puts back. *)
Theorem image_files_invariant :
  forall self : TaskbarCatOverlay,
  reachable self ->
  forall k px, PyDict.get k (pose_images self) = Some px -> image_file px = k ++ ".png".
Proof.
  intros self Hr. change (files_ok self).
  induction Hr as [size y_off x_off d images_dir now | e self Hr IH].
  - unfold files_ok. rewrite init_images. intros k px.
    destruct images_dir as [files|]; [|discriminate].
    intros H. apply loaded_pixmap in H. now subst px.
  - destruct (step_cases e self) as [(mouse & t & now & ->) | (d & sz & y & x & ->)].
    + unfold files_ok.
      destruct (update_orientation_frame mouse t now self) as [-> _]. exact IH.
    + unfold files_ok. intros k px. rewrite update_cat_position_get.
      cbn [pose_images cat_size].
      destruct (_ && _); [intros [= <-]; reflexivity | apply IH].
Qed.

Lemma image_files_invariant_witness :
  image_file (mkPixmap "left.png" 200) = "left.png".
Proof.
  exact (image_files_invariant
           (step (SizeChanged Example.desktop 200) Example.cat)
           (reachable_step _ _ (reachable_init 150 15 (-10) Example.desktop
                                  (Some Example.images_dir) 1000))
           "left" (mkPixmap "left.png" 200) eq_refl).
Defined.

Lemma update_cat_position_geometry (d : Desktop) (self : TaskbarCatOverlay) :
  geometry (label (update_cat_position d self))
  = mkRect (screen_width d - cat_size self + x_offset self)
           (screen_height d - cat_size self + y_offset self)
           (cat_size self) (cat_size self)
  /\ cat_size (update_cat_position d self) = cat_size self
  /\ y_offset (update_cat_position d self) = y_offset self
  /\ x_offset (update_cat_position d self) = x_offset self.
Proof.
  unfold update_cat_position. cbn [label cat_size y_offset x_offset].
  split; [|repeat split].
  destruct (current_pose self) as [p|]; [|reflexivity].
  destruct (PyStr.truthy p); [|reflexivity].
  destruct (PyDict.get p _); reflexivity.
Qed.

Lemma reachable_geometry (self : TaskbarCatOverlay) :
  reachable self -> geometry_ok self.
Proof.
  induction 1 as [size y_off x_off d images_dir now | e self Hr IH].
  - unfold geometry_ok, init, load_images.
    cbn [pose_images cat_size current_pose last_change_time y_offset x_offset label].
    destruct (PyDict.contains "forward" _);
      [|destruct (PyDict.len _ >? 0); [destruct (PyDict.keys _)|]];
      try (split; reflexivity);
      unfold set_pose; cbn [current_pose pose_images pose_eqb];
      destruct (PyDict.get _ _); split; reflexivity.
  - destruct (step_cases e self) as [(mouse & t & now & ->) | (d & sz & y & x & ->)].
    + unfold geometry_ok.
      destruct (update_orientation_frame mouse t now self) as (_ & -> & _ & _ & ->).
      exact IH.
    + unfold geometry_ok.
      destruct (update_cat_position_geometry d
        (mkOverlay (current_pose self) (last_change_time self) (pose_images self)
                   sz y x (label self))) as (-> & -> & _).
      split; reflexivity.
Qed.

(** X10.  In every state the program reaches, the window is the square of
    side [cat_size]; so, for a size up to 4096, the anchor from which the
    pointer is classified is [cat_size / 2] to the right of the window's
    left edge and [33 * cat_size / 100] below its top, in integer
    division. *)
Theorem reachable_anchor :
  forall self : TaskbarCatOverlay,
  reachable self ->
  0 <= cat_size self <= 4096 ->
  rect_width (geometry (label self)) = cat_size self
  /\ rect_height (geometry (label self)) = cat_size self
  /\ get_cat_anchor_point self
     = (rect_x (geometry (label self)) + cat_size self / 2,
        rect_y (geometry (label self)) + 33 * cat_size self / 100).
Proof.
  intros self Hr Hsize.
  destruct (reachable_geometry self Hr) as [Hw Hh].
  split; [exact Hw|]. split; [exact Hh|].
  unfold get_cat_anchor_point. rewrite Hw, Hh.
  destruct (anchor_products (cat_size self) Hsize) as [-> ->].
  rewrite (Z.quot_div_nonneg (cat_size self) 2),
          (Z.quot_div_nonneg (33 * cat_size self) 100) by lia.
  reflexivity.
Qed.

Lemma reachable_anchor_witness :
  get_cat_anchor_point (step (SizeChanged Example.desktop 201) Example.cat)
  = (1709 + 201 / 2, 854 + 33 * 201 / 100).
Proof.
  refine (proj2 (proj2 (reachable_anchor
            (step (SizeChanged Example.desktop 201) Example.cat) _ _))).
  - apply reachable_step, reachable_init.
  - simpl. lia.
Defined.

(** ** The adjustment dialog *)

Lemma step_keys (e : event) (self : TaskbarCatOverlay) :
  PyDict.keys (pose_images (step e self)) = PyDict.keys (pose_images self).
Proof.
  destruct (step_cases e self) as [(mouse & t & now & ->) | (d & sz & y & x & ->)].
  - now destruct (update_orientation_frame mouse t now self) as [-> _].
  - now rewrite (proj1 (update_cat_position_keys _ _)).
Qed.

Lemma run_keys (es : list event) (self : TaskbarCatOverlay) :
  PyDict.keys (pose_images (run es self)) = PyDict.keys (pose_images self).
Proof.
  unfold run. revert self. induction es as [|e es IH]; intros self; [reflexivity|].
  simpl. rewrite IH. apply step_keys.
Qed.

Lemma step_in_range (e : event) (self : TaskbarCatOverlay) :
  in_dialog e -> settings_in_range self -> settings_in_range (step e self).
Proof.
  unfold settings_in_range. intros He Hs. destruct e; simpl in He.
  - cbn [step].
    destruct (update_orientation_frame mouse current_time now self)
      as (_ & -> & -> & -> & _). exact Hs.
  - cbn [step]. unfold update_size.
    match goal with
    | |- context [update_cat_position d ?s] =>
        destruct (update_cat_position_geometry d s) as (_ & -> & -> & ->)
    end. cbn. tauto.
  - cbn [step]. unfold update_y_offset.
    match goal with
    | |- context [update_cat_position d ?s] =>
        destruct (update_cat_position_geometry d s) as (_ & -> & -> & ->)
    end. cbn. tauto.
  - cbn [step]. unfold update_x_offset.
    match goal with
    | |- context [update_cat_position d ?s] =>
        destruct (update_cat_position_geometry d s) as (_ & -> & -> & ->)
    end. cbn. tauto.
  - contradiction.
Qed.

Lemma run_in_range (es : list event) (self : TaskbarCatOverlay) :
  Forall in_dialog es -> settings_in_range self -> settings_in_range (run es self).
Proof.
  unfold run. revert self. induction es as [|e es IH]; intros self Hes Hs; [exact Hs|].
  inversion Hes; subst. simpl. apply IH; [assumption|]. now apply step_in_range.
Qed.

(** X11.  Cancel undoes the dialog: whatever was changed while it was open
    (and whatever the timer did meanwhile), after Cancel the size and both
    offsets are those the dialog opened with, the window is placed and
    sized for them, the library has the same poses, and the settings file
    is untouched. *)
Theorem cancel_restores :
  forall (interaction : list event) (d : Desktop) (file : settings_file)
         (self : TaskbarCatOverlay),
  let result := show_position_dialog interaction (ClickCancel d) file self in
  cat_size (fst result) = cat_size self
  /\ y_offset (fst result) = y_offset self
  /\ x_offset (fst result) = x_offset self
  /\ geometry (label (fst result))
     = mkRect (screen_width d - cat_size self + x_offset self)
              (screen_height d - cat_size self + y_offset self)
              (cat_size self) (cat_size self)
  /\ PyDict.keys (pose_images (fst result)) = PyDict.keys (pose_images self)
  /\ snd result = file.
Proof.
  intros interaction d file self result. subst result.
  unfold show_position_dialog, on_cancel. cbn [fst snd].
  match goal with
  | |- context [update_cat_position d ?s] =>
      destruct (update_cat_position_geometry d s) as (-> & -> & -> & ->)
  end.
  cbn [cat_size y_offset x_offset].
  repeat split.
  rewrite (proj1 (update_cat_position_keys _ _)).
  cbn [pose_images]. apply run_keys.
Qed.

(** X12.  OK keeps what the dialog set: starting from settings within the
    ranges, with the spin boxes emitting values of their ranges, the
    settings stay within the ranges however the dialog is left; and after
    OK (no testing flag, the write succeeding) [load_settings] on the saved
    file returns the size and offsets the overlay now has, as does
    [load_settings] after [quit_application]. *)
Theorem ok_persists :
  forall (interaction : list event) (outcome : dialog_outcome) (file : settings_file)
         (self : TaskbarCatOverlay),
  settings_in_range self ->
  Forall in_dialog interaction ->
  let result := show_position_dialog interaction outcome file self in
  let saved (s : TaskbarCatOverlay) :=
    [("size", JInt (cat_size s)); ("y_offset", JInt (y_offset s));
     ("x_offset", JInt (x_offset s))] in
  settings_in_range (fst result)
  /\ (forall argv,
        ~ In "-testing" argv -> ~ In "--testing" argv ->
        outcome = ClickOk argv Written ->
        load_settings (snd result) = saved (fst result)
        /\ load_settings (quit_application argv Written (snd result) (fst result))
           = saved (fst result)).
Proof.
  intros interaction outcome file self Hs Hi result saved. subst result saved.
  pose proof (run_in_range interaction self Hi Hs) as Hrun.
  split.
  - unfold show_position_dialog. destruct outcome; cbn [fst]; [exact Hrun| |exact Hrun].
    unfold settings_in_range, on_cancel.
    match goal with
    | |- context [update_cat_position d ?s] =>
        destruct (update_cat_position_geometry d s) as (_ & -> & -> & ->)
    end.
    exact Hs.
  - intros argv N1 N2 ->. unfold show_position_dialog, quit_application. cbn [fst snd].
    destruct Hrun as (H1 & H2 & H3).
    split; now apply save_then_load.
Qed.

Lemma ok_persists_witness :
  load_settings
    (snd (show_position_dialog
            [SizeChanged Example.desktop 200;
             Timeout Example.pointer_left 1150 1151;
             XOffsetChanged Example.desktop 30]
            (ClickOk ["base.py"] Written) None Example.cat))
  = [("size", JInt 200); ("y_offset", JInt 15); ("x_offset", JInt 30)].
Proof.
  refine (proj1 (proj2 (ok_persists
            [SizeChanged Example.desktop 200;
             Timeout Example.pointer_left 1150 1151;
             XOffsetChanged Example.desktop 30]
            (ClickOk ["base.py"] Written) None Example.cat _ _)
            ["base.py"] _ _ eq_refl)).
  - unfold settings_in_range. simpl. lia.
  - repeat constructor; simpl; lia.
  - simpl. intuition discriminate.
  - simpl. intuition discriminate.
Defined.

(** ** Ticks *)

Lemma tick_within_cooldown (mouse : Z * Z) (current_time now : Z)
    (self : TaskbarCatOverlay) :
  current_time - last_change_time self < POSE_CHANGE_COOLDOWN_MS ->
  update_orientation mouse current_time now self = self.
Proof.
  intros Hlt. unfold update_orientation.
  destruct (target_pose self mouse) as [target|]; [|reflexivity].
  destruct (negb (pose_eqb target (current_pose self))); [|reflexivity].
  destruct (Z.geb_spec (current_time - last_change_time self) POSE_CHANGE_COOLDOWN_MS);
    [lia | reflexivity].
Qed.

(** X13.  During the cooldown the overlay is frozen: a run of ticks that
    all read the clock less than 150 ms after [last_change_time] leaves the
    overlay exactly as it was, wherever the pointer goes. *)
Theorem cooldown_freeze :
  forall (ticks : list event) (self : TaskbarCatOverlay),
  Forall (within_cooldown (last_change_time self)) ticks ->
  run ticks self = self.
Proof.
  unfold run. intros ticks self. induction ticks as [|e ticks IH]; intros Hall;
    [reflexivity|].
  inversion Hall as [|? ? He Hrest]; subst. simpl.
  destruct e; simpl in He; try contradiction.
  cbn [step]. rewrite tick_within_cooldown by exact He. now apply IH.
Qed.

Lemma cooldown_freeze_witness :
  run [Timeout Example.pointer_left 1075 1075; Timeout (0, 0) 1149 1149] Example.cat
  = Example.cat.
Proof.
  apply (cooldown_freeze
           [Timeout Example.pointer_left 1075 1075; Timeout (0, 0) 1149 1149]
           Example.cat).
  repeat constructor; simpl; unfold POSE_CHANGE_COOLDOWN_MS; lia.
Defined.

(** X14.  A tick touches nothing but the pose: the library, the size, the
    offsets and the place of the window are as before; if [current_pose] is
    the same after the tick then so is the whole overlay; and if it
    differs, the tick read the clock at least 150 ms after the previous
    [last_change_time], the new pose is a key of the library and
    [last_change_time] is the clock of the commit. *)
Theorem tick_changes_only_pose :
  forall (mouse : Z * Z) (current_time now : Z) (self : TaskbarCatOverlay),
  let self' := update_orientation mouse current_time now self in
  pose_images self' = pose_images self
  /\ cat_size self' = cat_size self
  /\ y_offset self' = y_offset self
  /\ x_offset self' = x_offset self
  /\ geometry (label self') = geometry (label self)
  /\ (current_pose self' = current_pose self -> self' = self)
  /\ (current_pose self' <> current_pose self ->
      current_time - last_change_time self >= 150
      /\ last_change_time self' = now
      /\ exists p, current_pose self' = Some p
                   /\ In p (PyDict.keys (pose_images self))).
Proof.
  intros mouse t now self self'. subst self'.
  destruct (update_orientation_frame mouse t now self) as (H1 & H2 & H3 & H4 & H5).
  do 5 (split; [assumption|]). clear H1 H2 H3 H4 H5.
  destruct (target_pose self mouse) as [target|] eqn:Ht.
  - destruct (pose_eqb target (current_pose self)) eqn:He.
    + rewrite (update_orientation_blocked _ _ _ _ target Ht).
      * split; [reflexivity | intros H; now elim H].
      * apply pose_eqb_true in He. intros [Hne _]. congruence.
    + apply pose_eqb_false in He.
      destruct (Z_lt_ge_dec (t - last_change_time self) POSE_CHANGE_COOLDOWN_MS)
        as [Hlt|Hge].
      * rewrite tick_within_cooldown by exact Hlt.
        split; [reflexivity | intros H; now elim H].
      * destruct (update_orientation_commit mouse t now self target Ht He Hge)
          as (px & _ & ->).
        cbn [current_pose last_change_time]. split.
        -- intros H. congruence.
        -- intros _. unfold POSE_CHANGE_COOLDOWN_MS in Hge.
           split; [lia|]. split; [reflexivity|].
           exists target. split; [reflexivity | now apply target_pose_In in Ht].
  - unfold update_orientation. rewrite Ht.
    split; [reflexivity | intros H; now elim H].
Qed.

(** ** More on the classifier and the resolver *)

(** X15.  The classifier is mirror-symmetric: for the opposite displacement
    it gives the opposite directions (left for right, up for down, forward
    and center staying) with the same two intensities. *)
Theorem classifier_symmetry :
  forall dx dy : Z,
  horizontal (determine_direction (- dx) (- dy))
    = (mirror (fst (horizontal (determine_direction dx dy))),
       snd (horizontal (determine_direction dx dy)))
  /\ vertical (determine_direction (- dx) (- dy))
    = (mirror (fst (vertical (determine_direction dx dy))),
       snd (vertical (determine_direction dx dy))).
Proof. intros dx dy. split; classify. Qed.

(** X16.  With a single image in the library, every descriptor resolves to
    that image's pose; in particular a library holding only forward always
    answers forward. *)
Theorem single_pose_library :
  forall (images : PyDict.t QPixmap) (k : string),
  PyDict.keys images = [k] ->
  forall h_dir h_intensity v_dir v_intensity : string,
  find_best_pose images h_dir h_intensity v_dir v_intensity = Some k.
Proof.
  intros images k Hk h hi v vi.
  destruct (find_best_pose images h hi v vi) as [p|] eqn:Hr.
  - apply find_best_pose_In in Hr. rewrite Hk in Hr.
    destruct Hr as [<-|[]]. reflexivity.
  - apply find_best_pose_None in Hr. subst images. discriminate.
Qed.

Lemma single_pose_library_witness :
  find_best_pose [("forward", mkPixmap "forward.png" 150)] "left" "far" "up" "slight"
  = Some "forward".
Proof.
  exact (single_pose_library [("forward", mkPixmap "forward.png" 150)] "forward"
           eq_refl "left" "far" "up" "slight").
Defined.

(** ** The window style *)

Lemma land_le_r (a m : Z) : 0 <= m -> Z.land a m <= m.
Proof.
  intros Hm.
  assert (Hd : Z.land (Z.ldiff m a) (Z.land m a) = 0).
  { apply Z.bits_inj'. intros n Hn.
    rewrite Z.land_spec, Z.ldiff_spec, Z.land_spec, Z.bits_0.
    destruct (Z.testbit m n), (Z.testbit a n); reflexivity. }
  pose proof (Z.add_lor_land (Z.ldiff m a) (Z.land m a)) as Hs.
  rewrite Z.lor_ldiff_and, Hd in Hs.
  assert (0 <= Z.ldiff m a) by (apply Z.ldiff_nonneg; auto).
  rewrite (Z.land_comm a m). lia.
Qed.

(** X17.  [make_click_through] sets the transparent and the layered bit
    (bits 5 and 19) of the extended style and leaves every other bit as it
    was, so the topmost bit is not touched; applying it twice is applying
    it once; and a style that is a 32-bit signed value stays one, so
    [SetWindowLongW] receives a value of its range. *)
Theorem make_click_through_bits :
  forall style : Z,
  (forall n : Z,
     Z.testbit (make_click_through style) n
     = Z.testbit style n || (n =? 5) || (n =? 19))
  /\ make_click_through (make_click_through style) = make_click_through style
  /\ (Z.land (make_click_through style) WS_EX_TOPMOST
      = Z.land style WS_EX_TOPMOST)
  /\ (- 2 ^ 31 <= style < 2 ^ 31 ->
      - 2 ^ 31 <= make_click_through style < 2 ^ 31).
Proof.
  intros style.
  assert (Hbits : forall s n, Z.testbit (make_click_through s) n
                              = Z.testbit s n || (n =? 5) || (n =? 19)).
  { intros s n. unfold make_click_through, WS_EX_TRANSPARENT, WS_EX_LAYERED.
    rewrite !Z.lor_spec.
    change 0x20 with (2 ^ 5). change 0x80000 with (2 ^ 19).
    rewrite !Z.pow2_bits_eqb by lia.
    rewrite (Z.eqb_sym 5 n), (Z.eqb_sym 19 n). now rewrite orb_assoc. }
  split; [exact (Hbits style)|]. split; [|split].
  - apply Z.bits_inj'. intros n _. rewrite !Hbits.
    destruct (Z.testbit style n), (n =? 5), (n =? 19); reflexivity.
  - apply Z.bits_inj'. intros n _. rewrite !Z.land_spec, Hbits.
    unfold WS_EX_TOPMOST. change 0x00000008 with (2 ^ 3).
    rewrite Z.pow2_bits_eqb by lia.
    destruct (Z.eqb_spec 3 n) as [<-|_]; [|now rewrite !andb_false_r].
    simpl. now rewrite !orb_false_r.
  - intros [Hlo Hhi]. unfold make_click_through.
    set (m := Z.lor WS_EX_TRANSPARENT WS_EX_LAYERED).
    assert (Hm : m = 524320) by reflexivity.
    destruct (Z_lt_ge_dec style 0) as [Hneg|Hpos].
    + split.
      * pose proof (Z.add_lor_land style m) as Hs.
        pose proof (land_le_r style m ltac:(lia)). lia.
      * assert (Z.lor style m < 0) by (apply Z.lor_neg; auto). lia.
    + split.
      * assert (0 <= Z.lor style m) by (apply Z.lor_nonneg; lia). lia.
      * assert (Hl : Z.log2 (Z.lor style m) < 31).
        { rewrite Z.log2_lor by lia. rewrite Hm.
          change (Z.log2 524320) with 19.
          destruct (Z.eq_dec style 0) as [->|Hnz]; [simpl; lia|].
          assert (Z.log2 style < 31) by (apply Z.log2_lt_pow2; lia). lia. }
        apply Z.log2_lt_pow2 in Hl; [exact Hl|].
        assert (0 < m) by lia.
        assert (m <= Z.lor style m).
        { pose proof (Z.add_lor_land style m).
          pose proof (land_le_r m style ltac:(lia)) as Hle.
          rewrite Z.land_comm in Hle. lia. }
        lia.
Qed.

Lemma make_click_through_bits_witness :
  - 2 ^ 31 <= make_click_through (-2147483648) < 2 ^ 31.
Proof.
  refine (proj2 (proj2 (proj2 (make_click_through_bits (-2147483648)))) _).
  lia.
Defined.

(** ** The resolver and re-scaling *)

Lemma contains_keys {V W : Type} (d : PyDict.t V) (d' : PyDict.t W) (k : string) :
  PyDict.keys d = PyDict.keys d' -> PyDict.contains k d = PyDict.contains k d'.
Proof.
  intros Hk. apply eq_true_iff_eq. now rewrite !contains_In, Hk.
Qed.

Lemma first_present_keys {V W : Type} (cands : list string)
    (d : PyDict.t V) (d' : PyDict.t W) :
  PyDict.keys d = PyDict.keys d' -> first_present cands d = first_present cands d'.
Proof.
  intros Hk. induction cands as [|c cands IH]; simpl; [reflexivity|].
  now rewrite (contains_keys d d' c Hk), IH.
Qed.

(** X18.  The resolver looks at the names of the library only, so what it
    answers for a descriptor is the same before and after the images are
    re-scaled by [update_cat_position]: a resize never changes which pose
    a direction maps to. *)
Theorem resolver_ignores_rescaling :
  forall (d : Desktop) (self : TaskbarCatOverlay)
         (h_dir h_intensity v_dir v_intensity : string),
  find_best_pose (pose_images (update_cat_position d self))
                 h_dir h_intensity v_dir v_intensity
  = find_best_pose (pose_images self) h_dir h_intensity v_dir v_intensity.
Proof.
  intros d self h hi v vi.
  pose proof (proj1 (update_cat_position_keys d self)) as Hk.
  unfold find_best_pose.
  rewrite (first_present_keys _ _ _ Hk), (contains_keys _ _ "forward" Hk), Hk.
  replace (PyDict.len (pose_images (update_cat_position d self)))
    with (PyDict.len (pose_images self)); [reflexivity|].
  unfold PyDict.len. f_equal.
  unfold PyDict.keys in Hk.
  now rewrite <- (length_map fst (pose_images self)), <- Hk, length_map.
Qed.
